(** * Estoque: the inventory ledger of [diagrama.py]

    A shallow embedding of the classes [Produto], [Venda] and [Estoque] (and
    of the one display routine of [Interface] that sorts the low-stock list).

    Modelling choices, each following the Python source:
    - [int] is [Z] (Python integers are unbounded); turning one into text,
      as every [{...}] of an f-string does, raises [ValueError] when it has
      more than 4300 digits, the default limit of CPython 3.11 and 3.12;
    - [float] is the kernel's binary64 [PrimFloat.float]; an [int] operand of a
      float product is converted as CPython does, rounding to nearest-even and
      raising [OverflowError] when the integer exceeds the double range;
    - [dict] is an association list in insertion order, keys unique
      ([Dict.wf]); [d[k]] on a missing key raises [KeyError];
    - an object stored in a dict and mutated in place is written back under
      its key, which keeps its position; each key of the product map holds a
      [Produto] of its own, as [adicionar_produto] creates them;
    - a [Venda] keeps the mapping it was given, which the ledger never
      mutates afterwards;
    - [print] appends a line to the list of lines the operation returns;
    - [datetime] is the number of microseconds since [datetime.min]; the clock
      reading of [datetime.now()] is an explicit argument;
    - two built-ins do not behave the same everywhere, and are taken from
      a [Plataforma]: [sum] over floats, which adds from left to right up to
      CPython 3.11 and with a compensation term from CPython 3.12 on, and
      [strftime], whose rendering of [%Y] is that of the C library. *)

From Stdlib Require Import ZArith List Ascii String Bool Lia Permutation Sorted.
From Stdlib Require Import DecimalString.
From Stdlib Require Import Floats.PrimFloat Floats.SpecFloat Floats.FloatOps.
Import ListNotations.
Open Scope string_scope.
Open Scope Z_scope.

Set Warnings "-inexact-float".

(** ** Exceptions and results *)

Inductive Excecao : Type :=
| KeyError (k : Z)
| OverflowError
| ValueError.

Inductive Resultado (A : Type) : Type :=
| Retorna (a : A)
| Levanta (e : Excecao).

Arguments Retorna {A} a.
Arguments Levanta {A} e.

Definition bind {A B : Type} (m : Resultado A) (k : A -> Resultado B) : Resultado B :=
  match m with
  | Retorna a => k a
  | Levanta e => Levanta e
  end.

Notation "x <- m ;; k" := (bind m (fun x => k))
  (at level 61, m at next level, right associativity).

(** ** Python built-ins used by the program *)

(** The decimal digits of an integer, a minus sign first when negative. *)
Definition decimal (n : Z) : string := NilZero.string_of_int (Z.to_int n).

(** [sys.get_int_max_str_digits()] *)
Definition int_max_str_digits : Z := 4300.

(** An integer of at most [int_max_str_digits] digits, the sign not counted. *)
Definition imprimivel (n : Z) : Prop := Z.abs n < 10 ^ int_max_str_digits.

(** [str(n)] and [f"{n}"] for an [int]. *)
Definition str_int (n : Z) : Resultado string :=
  if Z.abs n <? 10 ^ int_max_str_digits then Retorna (decimal n)
  else Levanta ValueError.

Arguments str_int : simpl never.

(** [str(len(xs))]: a length is below 2^63, far within the limit. *)
Definition str_len {A : Type} (xs : list A) : string :=
  decimal (Z.of_nat (List.length xs)).

(** The [int] to [float] conversion of a mixed product [float * int]. *)
Definition float_of_int (n : Z) : Resultado float :=
  match binary_normalize prec emax n 0 false with
  | S754_infinity _ => Levanta OverflowError
  | sf => Retorna (SF2Prim sf)
  end.

(** [x * n] with [x : float] and [n : int]. *)
Definition mul_float_int (x : float) (n : Z) : Resultado float :=
  y <- float_of_int n ;; Retorna (PrimFloat.mul x y).

Definition dois_digitos (n : Z) : string :=
  if n <? 10 then "0" ++ decimal n else decimal n.

(** [f"{x:.2f}"] for a float: the exact binary value rounded to two decimals,
    ties to even; the digit limit of integers does not apply to floats. *)
Definition fmt2f (x : float) : string :=
  match Prim2SF x with
  | S754_nan => "nan"
  | S754_infinity s => if s then "-inf" else "inf"
  | S754_zero s => if s then "-0.00" else "0.00"
  | S754_finite s m e =>
      let num := Zpos m * 100 in
      let n :=
        if 0 <=? e then num * 2 ^ e
        else
          let den := 2 ^ (- e) in
          let q := num / den in
          let r := num mod den in
          if 2 * r <? den then q
          else if den <? 2 * r then q + 1
          else if Z.even q then q else q + 1 in
      (if s then "-" else "") ++ decimal (n / 100) ++ "." ++ dois_digitos (n mod 100)
  end.

(** The line feed written as [\n] in the source. *)
Definition nl : string := String "010"%char EmptyString.

(** [for x in xs: corpo], threading the variable the body reassigns. *)
Fixpoint para_cada {A S : Type} (xs : list A) (corpo : S -> A -> Resultado S) (s : S)
  : Resultado S :=
  match xs with
  | [] => Retorna s
  | x :: resto => s' <- corpo s x ;; para_cada resto corpo s'
  end.

(** [for x in xs: print(f"...")]: the lines printed, and the exception that
    stopped the loop, if any. *)
Fixpoint imprimir_cada {A : Type} (linha : A -> Resultado string) (xs : list A)
  : list string * option Excecao :=
  match xs with
  | [] => ([], None)
  | x :: resto =>
      match linha x with
      | Levanta e => ([], Some e)
      | Retorna l => let '(ls, e) := imprimir_cada linha resto in (l :: ls, e)
      end
  end.

(** [sorted(xs, key=chave)] for keys ordered by [leb]: the stable ascending
    sort, an element going before the first one whose key is not smaller. *)
Fixpoint inserir_por {A K : Type} (leb : K -> K -> bool) (chave : A -> K) (x : A)
    (xs : list A) : list A :=
  match xs with
  | [] => [x]
  | y :: resto =>
      if leb (chave x) (chave y) then x :: y :: resto
      else y :: inserir_por leb chave x resto
  end.

Fixpoint sorted {A K : Type} (leb : K -> K -> bool) (chave : A -> K) (xs : list A)
  : list A :=
  match xs with
  | [] => []
  | x :: resto => inserir_por leb chave x (sorted leb chave resto)
  end.

(** [datetime.datetime]: microseconds elapsed since [datetime.min]. *)
Definition datetime : Type := Z.
Definition datetime_min : datetime := 0.
Definition datetime_max : datetime := 315537897599999999.

(** ** The platform: interpreter version and C library *)

Record Plataforma : Type := {
  (** [sum] over a sequence of floats that is not empty. *)
  soma_float : list float -> float;
  (** [strftime d fmt] stands for [d.strftime(fmt)], taken to return a string
      for the timestamps and the two formats of the program. *)
  strftime : datetime -> string -> string
}.

(** [sum(xs)] for floats [xs]: the start value [0] when there is nothing to
    add (Python's integer zero, read here as the float zero). *)
Definition sum (py : Plataforma) (xs : list float) : float :=
  match xs with
  | [] => 0%float
  | _ => soma_float py xs
  end.

(** CPython up to 3.11: [0 + x1 + x2 + ...], from left to right. *)
Definition soma_float_311 (xs : list float) : float :=
  fold_left PrimFloat.add xs 0%float.

(** CPython from 3.12 on: Neumaier's compensated sum; the compensation is
    added at the end when it is neither zero nor infinite nor a NaN. *)
Fixpoint neumaier (xs : list float) (f_result c : float) : float :=
  match xs with
  | [] =>
      if negb (PrimFloat.eqb c 0%float) && PrimFloat.is_finite c
      then PrimFloat.add f_result c
      else f_result
  | x :: resto =>
      let t := PrimFloat.add f_result x in
      let c' :=
        if PrimFloat.leb (PrimFloat.abs x) (PrimFloat.abs f_result)
        then PrimFloat.add c (PrimFloat.add (PrimFloat.sub f_result t) x)
        else PrimFloat.add c (PrimFloat.add (PrimFloat.sub x t) f_result) in
      neumaier resto t c'
  end.

Definition soma_float_312 (xs : list float) : float :=
  match xs with
  | [] => 0%float
  | x :: resto => neumaier resto (PrimFloat.add 0%float x) 0%float
  end.

(** ** [strftime] as glibc renders the two formats of the program *)

(** Year, month and day of the day numbered [dias] from 0001-01-01. *)
Definition data_civil (dias : Z) : Z * Z * Z :=
  let z := dias + 306 in
  let era := z / 146097 in
  let doe := z mod 146097 in
  let yoe := (doe - doe / 1460 + doe / 36524 - doe / 146096) / 365 in
  let doy := doe - (365 * yoe + yoe / 4 - yoe / 100) in
  let mp := (5 * doy + 2) / 153 in
  let d := doy - (153 * mp + 2) / 5 + 1 in
  let m := if mp <? 10 then mp + 3 else mp - 9 in
  let y := yoe + era * 400 + (if m <=? 2 then 1 else 0) in
  (y, m, d).

(** [%d/%m/%Y], followed by [%H:%M] when [fmt] asks for it. *)
Definition strftime_glibc (d : datetime) (fmt : string) : string :=
  let segundos := d / 1000000 in
  let '(y, m, dia) := data_civil (segundos / 86400) in
  let dmy := dois_digitos dia ++ "/" ++ dois_digitos m ++ "/" ++ decimal y in
  if String.eqb fmt "%d/%m/%Y %H:%M" then
    dmy ++ " " ++ dois_digitos (segundos mod 86400 / 3600)
    ++ ":" ++ dois_digitos (segundos mod 3600 / 60)
  else dmy.

Definition cpython311 : Plataforma := Build_Plataforma soma_float_311 strftime_glibc.
Definition cpython312 : Plataforma := Build_Plataforma soma_float_312 strftime_glibc.

(** ** Insertion-ordered dictionaries keyed by [int] *)

Module Dict.
Section Ops.
Context {V : Type}.

Definition t : Type := list (Z * V).

Definition empty : t := [].

Fixpoint get (d : t) (k : Z) : option V :=
  match d with
  | [] => None
  | (k', v) :: r => if k' =? k then Some v else get r k
  end.

(** [k in d] *)
Definition contains (d : t) (k : Z) : bool :=
  match get d k with Some _ => true | None => false end.

(** [d[k]] *)
Definition getitem (d : t) (k : Z) : Resultado V :=
  match get d k with
  | Some v => Retorna v
  | None => Levanta (KeyError k)
  end.

(** [d[k] = v]: an existing key keeps its position, a new one goes last. *)
Fixpoint set (d : t) (k : Z) (v : V) : t :=
  match d with
  | [] => [(k, v)]
  | (k', v') :: r => if k' =? k then (k', v) :: r else (k', v') :: set r k v
  end.

(** [del d[k]] *)
Fixpoint del (d : t) (k : Z) : t :=
  match d with
  | [] => []
  | (k', v') :: r => if k' =? k then r else (k', v') :: del r k
  end.

Definition items (d : t) : list (Z * V) := d.
Definition keys (d : t) : list Z := map fst d.
Definition values (d : t) : list V := map snd d.

(** A Python dict holds each key once. *)
Definition wf (d : t) : Prop := NoDup (keys d).
End Ops.
Arguments t : clear implicits.
End Dict.

(** ** class Produto *)

Module Produto.
Record t : Type := mk {
  id : Z;
  nome : string;
  tamanho : string;
  cor : string;
  quantidade : Z;
  preco : float;
  limite_minimo : Z
}.

Definition com_quantidade (p : t) (q : Z) : t :=
  mk (id p) (nome p) (tamanho p) (cor p) q (preco p) (limite_minimo p).

(** [self.quantidade += quantidade] *)
Definition atualizar_quantidade (p : t) (quantidade' : Z) : t :=
  com_quantidade p (quantidade p + quantidade').

(** [return self.quantidade < self.limite_minimo] *)
Definition verificar_estoque_baixo (p : t) : bool :=
  quantidade p <? limite_minimo p.

(** [__str__] *)
Definition str (p : t) : Resultado string :=
  id_txt <- str_int (id p) ;;
  quantidade_txt <- str_int (quantidade p) ;;
  Retorna ("ID: " ++ id_txt ++ " | " ++ nome p ++ " | Tamanho: " ++ tamanho p
           ++ " | Cor: " ++ cor p ++ " | Quantidade: " ++ quantidade_txt
           ++ " | Preço: R$" ++ fmt2f (preco p)).
End Produto.

(** ** class Venda *)

Module Venda.
Record t : Type := mk {
  id : Z;
  produtos : Dict.t Z;
  data : datetime;
  valor_total : float
}.

(** [Venda(id, produtos)]: [data] is the clock reading, the total [0.0]. *)
Definition init (id' : Z) (produtos' : Dict.t Z) (agora : datetime) : t :=
  mk id' produtos' agora 0%float.

(** The terms [produtos[id_produto].preco * quantidade] of the generator, in
    the order of the items, up to the first that raises. *)
Fixpoint parcelas (estoque : Dict.t Produto.t) (itens : list (Z * Z))
  : Resultado (list float) :=
  match itens with
  | [] => Retorna []
  | (id_produto, quantidade) :: resto =>
      p <- Dict.getitem estoque id_produto ;;
      parcela <- mul_float_int (Produto.preco p) quantidade ;;
      outras <- parcelas estoque resto ;;
      Retorna (parcela :: outras)
  end.

(** [calcular_valor_total] *)
Definition calcular_valor_total (py : Plataforma) (v : t) (estoque : Dict.t Produto.t)
  : Resultado t :=
  xs <- parcelas estoque (Dict.items (produtos v)) ;;
  Retorna (mk (id v) (produtos v) (data v) (sum py xs)).

(** [__str__] *)
Definition str (py : Plataforma) (v : t) : Resultado string :=
  id_txt <- str_int (id v) ;;
  Retorna ("Venda #" ++ id_txt ++ " | Data: " ++ strftime py (data v) "%d/%m/%Y %H:%M"
           ++ " | Valor: R$" ++ fmt2f (valor_total v)).
End Venda.

(** ** class Estoque *)

Module Estoque.
Record t : Type := mk {
  produtos : Dict.t Produto.t;
  vendas : list Venda.t;
  ultimo_id_produto : Z;
  ultimo_id_venda : Z
}.

(** [Estoque()] *)
Definition init : t := mk Dict.empty [] 0 0.

Definition com_produtos (s : t) (ps : Dict.t Produto.t) : t :=
  mk ps (vendas s) (ultimo_id_produto s) (ultimo_id_venda s).

(** [adicionar_produto]: the new ledger and the product returned. *)
Definition adicionar_produto (s : t) (nome tamanho cor : string) (quantidade : Z)
    (preco : float) (limite_minimo : Z) : t * Produto.t :=
  let novo_id := ultimo_id_produto s + 1 in
  let produto := Produto.mk novo_id nome tamanho cor quantidade preco limite_minimo in
  (mk (Dict.set (produtos s) novo_id produto) (vendas s) novo_id (ultimo_id_venda s),
   produto).

(** [if nome:] holds for a string that is neither [None] nor empty. *)
Definition texto_ou (novo : option string) (atual : string) : string :=
  match novo with
  | Some (String c r) => String c r
  | Some EmptyString | None => atual
  end.

(** [if quantidade is not None:] *)
Definition valor_ou {A : Type} (novo : option A) (atual : A) : A :=
  match novo with
  | Some x => x
  | None => atual
  end.

(** [atualizar_produto]: [None] for an unknown identifier. *)
Definition atualizar_produto (s : t) (id_produto : Z) (nome tamanho cor : option string)
    (quantidade : option Z) (preco : option float) (limite_minimo : option Z)
  : t * option Produto.t :=
  match Dict.get (produtos s) id_produto with
  | None => (s, None)
  | Some produto =>
      let produto' :=
        Produto.mk (Produto.id produto)
          (texto_ou nome (Produto.nome produto))
          (texto_ou tamanho (Produto.tamanho produto))
          (texto_ou cor (Produto.cor produto))
          (valor_ou quantidade (Produto.quantidade produto))
          (valor_ou preco (Produto.preco produto))
          (valor_ou limite_minimo (Produto.limite_minimo produto)) in
      (com_produtos s (Dict.set (produtos s) id_produto produto'), Some produto')
  end.

(** [remover_produto] *)
Definition remover_produto (s : t) (id_produto : Z) : t * bool :=
  if Dict.contains (produtos s) id_produto
  then (com_produtos s (Dict.del (produtos s) id_produto), true)
  else (s, false).

(** The three lines [registrar_venda] prints; an f-string is built before
    [print] is called, so a value that cannot be turned into text raises with
    nothing printed. *)
Definition msg_nao_existe (id_produto : Z) : Resultado string :=
  id_txt <- str_int id_produto ;;
  Retorna ("Erro: Produto com ID " ++ id_txt ++ " não existe.").

Definition msg_apenas (p : Produto.t) : Resultado string :=
  quantidade_txt <- str_int (Produto.quantidade p) ;;
  Retorna ("Erro: Produto " ++ Produto.nome p ++ " tem apenas "
           ++ quantidade_txt ++ " unidades em estoque.").

Definition msg_alerta (p : Produto.t) : Resultado string :=
  quantidade_txt <- str_int (Produto.quantidade p) ;;
  Retorna ("ALERTA: Estoque baixo para " ++ Produto.nome p ++ " (Quantidade: "
           ++ quantidade_txt ++ ")").

(** The first loop of [registrar_venda]: [None] when every entry passes;
    otherwise what the first entry that fails does, which is to print a line
    (and [registrar_venda] returns [None]) or to raise while building it. *)
Fixpoint verificar (ps : Dict.t Produto.t) (itens : list (Z * Z))
  : option (Resultado string) :=
  match itens with
  | [] => None
  | (id_produto, quantidade) :: resto =>
      match Dict.get ps id_produto with
      | None => Some (msg_nao_existe id_produto)
      | Some p =>
          if Produto.quantidade p <? quantidade then Some (msg_apenas p)
          else verificar ps resto
      end
  end.

(** The second loop of [registrar_venda]: the product map after the
    decrements made, the alerts printed, and the exception that stopped it,
    if any; an alert that cannot be built stops the loop after the decrement
    of its product. *)
Fixpoint baixar (ps : Dict.t Produto.t) (itens : list (Z * Z))
  : Dict.t Produto.t * list string * option Excecao :=
  match itens with
  | [] => (ps, [], None)
  | (id_produto, quantidade) :: resto =>
      match Dict.get ps id_produto with
      | None => (ps, [], Some (KeyError id_produto))
      | Some p =>
          let p' := Produto.atualizar_quantidade p (- quantidade) in
          let ps' := Dict.set ps id_produto p' in
          if Produto.verificar_estoque_baixo p' then
            match msg_alerta p' with
            | Levanta e => (ps', [], Some e)
            | Retorna alerta =>
                let '(ps'', saida, e) := baixar ps' resto in
                (ps'', alerta :: saida, e)
            end
          else baixar ps' resto
      end
  end.

(** [registrar_venda]: the ledger afterwards, the lines printed, and the
    value returned or the exception raised. *)
Definition registrar_venda (py : Plataforma) (s : t) (produtos_vendidos : Dict.t Z)
    (agora : datetime) : t * list string * Resultado (option Venda.t) :=
  match verificar (produtos s) (Dict.items produtos_vendidos) with
  | Some (Retorna erro) => (s, [erro], Retorna None)
  | Some (Levanta e) => (s, [], Levanta e)
  | None =>
      match baixar (produtos s) (Dict.items produtos_vendidos) with
      | (ps, saida, Some e) => (com_produtos s ps, saida, Levanta e)
      | (ps, saida, None) =>
          let novo_id := ultimo_id_venda s + 1 in
          let s1 := mk ps (vendas s) (ultimo_id_produto s) novo_id in
          match Venda.calcular_valor_total py
                  (Venda.init novo_id produtos_vendidos agora) ps with
          | Levanta e => (s1, saida, Levanta e)
          | Retorna venda =>
              (mk ps (vendas s ++ [venda])%list (ultimo_id_produto s) novo_id,
               saida, Retorna (Some venda))
          end
      end
  end.

(** [listar_produtos] *)
Definition listar_produtos (s : t) : list Produto.t := Dict.values (produtos s).

(** [listar_produtos_estoque_baixo] *)
Definition listar_produtos_estoque_baixo (s : t) : list Produto.t :=
  filter Produto.verificar_estoque_baixo (Dict.values (produtos s)).

Section Relatorios.
Variable py : Plataforma.

(** The line of a sold product that is still in stock. *)
Definition linha_produto (quantidade : Z) (produto : Produto.t) : Resultado string :=
  quantidade_txt <- str_int quantidade ;;
  Retorna ("  - " ++ quantidade_txt ++ "x " ++ Produto.nome produto
           ++ " (Tamanho: " ++ Produto.tamanho produto
           ++ ", Cor: " ++ Produto.cor produto
           ++ ") - R$" ++ fmt2f (Produto.preco produto) ++ " cada" ++ nl).

(** The line of a sold product that is no longer in stock. *)
Definition linha_nao_encontrado (quantidade id_produto : Z) : Resultado string :=
  quantidade_txt <- str_int quantidade ;;
  id_txt <- str_int id_produto ;;
  Retorna ("  - " ++ quantidade_txt ++ "x Produto ID " ++ id_txt
           ++ " (não encontrado no estoque atual)" ++ nl).

(** The body of the inner loop of [gerar_relatorio_vendas]. *)
Definition corpo_item (ps : Dict.t Produto.t) (relatorio : string) (item : Z * Z)
  : Resultado string :=
  let '(id_produto, quantidade) := item in
  if Dict.contains ps id_produto then
    produto <- Dict.getitem ps id_produto ;;
    linha <- linha_produto quantidade produto ;;
    Retorna (relatorio ++ linha)
  else
    linha <- linha_nao_encontrado quantidade id_produto ;;
    Retorna (relatorio ++ linha).

(** The body of the outer loop of [gerar_relatorio_vendas]. *)
Definition corpo_venda (ps : Dict.t Produto.t) (relatorio : string) (venda : Venda.t)
  : Resultado string :=
  venda_txt <- Venda.str py venda ;;
  let relatorio := relatorio ++ venda_txt ++ nl in
  let relatorio := relatorio ++ "Produtos vendidos:" ++ nl in
  relatorio <- para_cada (Dict.items (Venda.produtos venda)) (corpo_item ps) relatorio ;;
  Retorna (relatorio ++ nl).

Definition no_periodo (data_inicio data_fim : datetime) (venda : Venda.t) : bool :=
  (data_inicio <=? Venda.data venda) && (Venda.data venda <=? data_fim).

(** [sum(venda.valor_total for venda in vendas_periodo)] *)
Definition soma_totais (vendas_periodo : list Venda.t) : float :=
  sum py (map Venda.valor_total vendas_periodo).

(** [gerar_relatorio_vendas] *)
Definition gerar_relatorio_vendas (s : t) (data_inicio data_fim : option datetime)
  : Resultado string :=
  let data_inicio := valor_ou data_inicio datetime_min in
  let data_fim := valor_ou data_fim datetime_max in
  let vendas_periodo := filter (no_periodo data_inicio data_fim) (vendas s) in
  let relatorio := "===== RELATÓRIO DE VENDAS =====" ++ nl in
  let relatorio :=
    relatorio ++ "Período: "
    ++ (if data_inicio =? datetime_min then "Início"
        else strftime py data_inicio "%d/%m/%Y") ++ " " in
  let relatorio :=
    relatorio ++ "a "
    ++ (if data_fim =? datetime_max then "Hoje"
        else strftime py data_fim "%d/%m/%Y") ++ nl in
  let relatorio :=
    relatorio ++ "Total de vendas: " ++ str_len vendas_periodo ++ nl in
  let relatorio :=
    relatorio ++ "Valor total: R$" ++ fmt2f (soma_totais vendas_periodo) ++ nl ++ nl in
  para_cada vendas_periodo (corpo_venda (produtos s)) relatorio.

(** The line [gerar_relatorio_estoque] writes for one product. *)
Definition linha_estoque (produto : Produto.t) : Resultado string :=
  let status :=
    if Produto.verificar_estoque_baixo produto then "ESTOQUE BAIXO" else "OK" in
  produto_txt <- Produto.str produto ;;
  Retorna (produto_txt ++ " | Status: " ++ status ++ nl).

(** [gerar_relatorio_estoque]; names compare as Python strings do, code point
    by code point, which on their UTF-8 bytes is the order of [String.leb]. *)
Definition gerar_relatorio_estoque (s : t) (agora : datetime) : Resultado string :=
  let relatorio := "===== RELATÓRIO DE ESTOQUE =====" ++ nl in
  let relatorio :=
    relatorio ++ "Data: " ++ strftime py agora "%d/%m/%Y %H:%M" ++ nl in
  let relatorio :=
    relatorio ++ "Total de produtos: " ++ str_len (produtos s) ++ nl ++ nl in
  para_cada (sorted String.leb Produto.nome (Dict.values (produtos s)))
    (fun relatorio produto =>
       linha <- linha_estoque produto ;; Retorna (relatorio ++ linha))
    relatorio.
End Relatorios.
End Estoque.

(** ** class Interface: the display of the low-stock list *)

Module Interface.
(** [sorted(xs, key=lambda p: p.quantidade)]: the stable ascending sort. *)
Fixpoint inserir (p : Produto.t) (xs : list Produto.t) : list Produto.t :=
  match xs with
  | [] => [p]
  | x :: resto =>
      if Produto.quantidade p <=? Produto.quantidade x then p :: x :: resto
      else x :: inserir p resto
  end.

Fixpoint sorted_por_quantidade (xs : list Produto.t) : list Produto.t :=
  match xs with
  | [] => []
  | x :: resto => inserir x (sorted_por_quantidade resto)
  end.

(** The products [listar_produtos_estoque_baixo] prints, in the order of
    its [for] loop over [sorted(produtos, key=lambda p: p.quantidade)]. *)
Definition produtos_estoque_baixo_exibidos (estoque : Estoque.t) : list Produto.t :=
  sorted_por_quantidade (Estoque.listar_produtos_estoque_baixo estoque).

(** The lines [listar_produtos_estoque_baixo] prints, the prompt of its final
    [input] left out, and the exception that stopped it, if any. *)
Definition listar_produtos_estoque_baixo (estoque : Estoque.t)
  : list string * option Excecao :=
  let produtos := Estoque.listar_produtos_estoque_baixo estoque in
  let titulo := nl ++ "===== PRODUTOS COM ESTOQUE BAIXO =====" in
  match produtos with
  | [] => ([titulo; "Não há produtos com estoque baixo."], None)
  | _ =>
      let '(linhas, e) :=
        imprimir_cada
          (fun produto =>
             produto_txt <- Produto.str produto ;;
             Retorna (produto_txt ++ " | ALERTA: Estoque Baixo!"))
          (sorted_por_quantidade produtos) in
      (titulo :: linhas, e)
  end.

(** [_carregar_produtos_teste]; the threshold is the default 5. *)
Definition carregar_produtos_teste (estoque : Estoque.t) : Estoque.t :=
  let adicionar s nome tamanho cor quantidade preco :=
    fst (Estoque.adicionar_produto s nome tamanho cor quantidade preco 5) in
  let s := adicionar estoque "Camiseta Básica" "M" "Preta" 15 49.9%float in
  let s := adicionar s "Camiseta Básica" "G" "Preta" 10 49.9%float in
  let s := adicionar s "Camiseta Básica" "M" "Branca" 12 49.9%float in
  let s := adicionar s "Calça Jeans" "40" "Azul" 8 129.9%float in
  let s := adicionar s "Calça Jeans" "42" "Azul" 6 129.9%float in
  let s := adicionar s "Vestido Floral" "P" "Colorido" 5 89.9%float in
  let s := adicionar s "Vestido Floral" "M" "Colorido" 3 89.9%float in
  adicionar s "Bermuda Tactel" "M" "Preta" 20 59.9%float.

(** The ledger of [Interface()]. *)
Definition init : Estoque.t := carregar_produtos_teste Estoque.init.

(** The line [listar_produtos] prints for one product. *)
Definition linha_produto (produto : Produto.t) : Resultado string :=
  let status :=
    if Produto.verificar_estoque_baixo produto then "ESTOQUE BAIXO" else "OK" in
  produto_txt <- Produto.str produto ;;
  Retorna (produto_txt ++ " | Status: " ++ status).

Definition titulo_produtos : string := nl ++ "===== PRODUTOS EM ESTOQUE =====".

(** The title and the lines of the [for] loop of [listar_produtos] over the
    products in the order given, and the exception that stopped it, if any. *)
Definition imprimir_produtos (produtos : list Produto.t)
  : list string * option Excecao :=
  let '(linhas, e) := imprimir_cada linha_produto produtos in
  (titulo_produtos :: linhas, e).

(** What [listar_produtos] prints, the prompt of its final [input] left out,
    and the exception that stopped it, if any. *)
Definition listar_produtos (estoque : Estoque.t) : list string * option Excecao :=
  let produtos := Estoque.listar_produtos estoque in
  match produtos with
  | [] => ([titulo_produtos; "Nenhum produto cadastrado."], None)
  | _ => imprimir_produtos (sorted Z.leb Produto.id produtos)
  end.
End Interface.

(** ** Notions the specification speaks of *)

(** A line item fails validation: its product is unknown, or the stock on
    hand is strictly less than the quantity asked for. *)
Definition item_invalido (ps : Dict.t Produto.t) (item : Z * Z) : Prop :=
  match Dict.get ps (fst item) with
  | None => True
  | Some p => Produto.quantidade p < snd item
  end.

(** The specification's structured validation failures. *)
Inductive Falha : Type :=
| UnknownProduct (id_produto : Z)
| InsufficientStock (id_produto disponivel pedido : Z).

(** The failure of the first line item that does not validate. *)
Fixpoint falha_de (ps : Dict.t Produto.t) (itens : list (Z * Z)) : option Falha :=
  match itens with
  | [] => None
  | (id_produto, pedido) :: resto =>
      match Dict.get ps id_produto with
      | None => Some (UnknownProduct id_produto)
      | Some p =>
          if Produto.quantidade p <? pedido
          then Some (InsufficientStock id_produto (Produto.quantidade p) pedido)
          else falha_de ps resto
      end
  end.

(** The unit price of a product in a ledger. *)
Definition preco_em (s : Estoque.t) (id_produto : Z) : option float :=
  option_map Produto.preco (Dict.get (Estoque.produtos s) id_produto).

(** The terms unit price times quantity of the line items, the prices read
    from [preco_de]; [None] when a price is missing or a quantity is outside
    the double range. *)
Fixpoint parcelas_por_precos (preco_de : Z -> option float) (itens : list (Z * Z))
  : option (list float) :=
  match itens with
  | [] => Some []
  | (id_produto, quantidade) :: resto =>
      match preco_de id_produto, float_of_int quantidade,
            parcelas_por_precos preco_de resto with
      | Some x, Retorna y, Some outras => Some (PrimFloat.mul x y :: outras)
      | _, _, _ => None
      end
  end.

(** The sum over line items of unit price times quantity. *)
Definition total_por_precos (py : Plataforma) (preco_de : Z -> option float)
    (itens : list (Z * Z)) : option float :=
  option_map (sum py) (parcelas_por_precos preco_de itens).

(** Every stored product has a quantity of at least zero. *)
Definition quantidades_nao_negativas (s : Estoque.t) : Prop :=
  Forall (fun p => 0 <= Produto.quantidade p) (Dict.values (Estoque.produtos s)).

(** One call of a public operation of the ledger, with the arguments the
    quantity invariant is stated for. A sale that ends in an exception still
    leaves a ledger behind, which is a successor as well. *)
Inductive passo (py : Plataforma) (s : Estoque.t) : Estoque.t -> Prop :=
| passo_adicionar nome tamanho cor quantidade preco limite_minimo :
    0 <= quantidade ->
    passo py s (fst (Estoque.adicionar_produto s nome tamanho cor quantidade preco
                       limite_minimo))
| passo_atualizar id_produto nome tamanho cor quantidade preco limite_minimo :
    (forall q, quantidade = Some q -> 0 <= q) ->
    passo py s (fst (Estoque.atualizar_produto s id_produto nome tamanho cor quantidade
                       preco limite_minimo))
| passo_remover id_produto :
    passo py s (fst (Estoque.remover_produto s id_produto))
| passo_vender produtos_vendidos agora :
    Dict.wf produtos_vendidos ->
    (forall id_produto q, In (id_produto, q) (Dict.items produtos_vendidos) -> 0 <= q) ->
    passo py s (fst (fst (Estoque.registrar_venda py s produtos_vendidos agora))).

(** The ledgers reachable from the empty one. *)
Inductive alcancavel (py : Plataforma) : Estoque.t -> Prop :=
| alcancavel_init : alcancavel py Estoque.init
| alcancavel_passo s s' : alcancavel py s -> passo py s s' -> alcancavel py s'.

(** The arguments of one call of [atualizar_produto]. *)
Record Alteracao : Type := {
  alt_id : Z;
  alt_nome : option string;
  alt_tamanho : option string;
  alt_cor : option string;
  alt_quantidade : option Z;
  alt_preco : option float;
  alt_limite_minimo : option Z
}.

Definition aplicar (s : Estoque.t) (a : Alteracao) : Estoque.t :=
  fst (Estoque.atualizar_produto s (alt_id a) (alt_nome a) (alt_tamanho a) (alt_cor a)
         (alt_quantidade a) (alt_preco a) (alt_limite_minimo a)).

(** A sequence of updates, one after the other. *)
Definition aplicar_todas (s : Estoque.t) (alteracoes : list Alteracao) : Estoque.t :=
  fold_left aplicar alteracoes s.

(** A text field after an update that supplied [novo]: a text that is
    neither absent nor empty replaces the field, anything else leaves it. *)
Definition texto_aplicado (novo : option string) (antes depois : string) : Prop :=
  (forall n, novo = Some n -> n <> "" -> depois = n)
  /\ (novo = None \/ novo = Some "" -> depois = antes).

(** A numeric field after an update that supplied [novo]: any value that is
    not absent, zero included, replaces the field. *)
Definition valor_aplicado {A : Type} (novo : option A) (antes depois : A) : Prop :=
  (forall x, novo = Some x -> depois = x)
  /\ (novo = None -> depois = antes).

(** Printing: what the texts below take for granted. A product, a line item
    of a report over the product map [ps] and a sale can be printed when the
    integers their lines show have at most 4300 digits: identifier and
    quantity of a product; the quantity of an item, and its product
    identifier when the product is gone; the identifier of a sale and its
    items. *)
Definition produto_imprimivel (p : Produto.t) : Prop :=
  imprimivel (Produto.id p) /\ imprimivel (Produto.quantidade p).

Definition item_imprimivel (ps : Dict.t Produto.t) (item : Z * Z) : Prop :=
  imprimivel (snd item) /\ (Dict.get ps (fst item) = None -> imprimivel (fst item)).

Definition venda_imprimivel (ps : Dict.t Produto.t) (venda : Venda.t) : Prop :=
  imprimivel (Venda.id venda)
  /\ Forall (item_imprimivel ps) (Dict.items (Venda.produtos venda)).

(** The low-stock alert of a line item, if the sale triggers one, shows a
    quantity that can be printed. *)
Definition alerta_imprimivel (ps : Dict.t Produto.t) (item : Z * Z) : Prop :=
  forall p, Dict.get ps (fst item) = Some p ->
    Produto.quantidade p - snd item < Produto.limite_minimo p ->
    imprimivel (Produto.quantidade p - snd item).

(** The text of a product that can be printed. *)
Definition texto_produto (p : Produto.t) : string :=
  "ID: " ++ decimal (Produto.id p) ++ " | " ++ Produto.nome p
  ++ " | Tamanho: " ++ Produto.tamanho p ++ " | Cor: " ++ Produto.cor p
  ++ " | Quantidade: " ++ decimal (Produto.quantidade p)
  ++ " | Preço: R$" ++ fmt2f (Produto.preco p).

(** The text of a sale that can be printed. *)
Definition texto_venda (py : Plataforma) (v : Venda.t) : string :=
  "Venda #" ++ decimal (Venda.id v) ++ " | Data: "
  ++ strftime py (Venda.data v) "%d/%m/%Y %H:%M"
  ++ " | Valor: R$" ++ fmt2f (Venda.valor_total v).

(** The line [gerar_relatorio_vendas] writes for one line item. *)
Definition linha_item (ps : Dict.t Produto.t) (item : Z * Z) : string :=
  match Dict.get ps (fst item) with
  | Some produto =>
      "  - " ++ decimal (snd item) ++ "x " ++ Produto.nome produto
      ++ " (Tamanho: " ++ Produto.tamanho produto
      ++ ", Cor: " ++ Produto.cor produto
      ++ ") - R$" ++ fmt2f (Produto.preco produto) ++ " cada" ++ nl
  | None =>
      "  - " ++ decimal (snd item) ++ "x Produto ID " ++ decimal (fst item)
      ++ " (não encontrado no estoque atual)" ++ nl
  end.

Fixpoint linhas (ps : Dict.t Produto.t) (itens : list (Z * Z)) : string :=
  match itens with
  | [] => ""
  | item :: resto => linha_item ps item ++ linhas ps resto
  end.

(** The block [gerar_relatorio_vendas] writes for one sale. *)
Definition bloco (py : Plataforma) (ps : Dict.t Produto.t) (venda : Venda.t) : string :=
  texto_venda py venda ++ nl ++ "Produtos vendidos:" ++ nl
  ++ linhas ps (Dict.items (Venda.produtos venda)) ++ nl.

Fixpoint blocos (py : Plataforma) (ps : Dict.t Produto.t) (vendas : list Venda.t)
  : string :=
  match vendas with
  | [] => ""
  | venda :: resto => bloco py ps venda ++ blocos py ps resto
  end.

(** Ascending order of quantity. *)
Definition por_quantidade (a b : Produto.t) : Prop :=
  Produto.quantidade a <= Produto.quantidade b.

(** ** Sample ledgers *)

(** Products A (5 in stock) and B (2 in stock). *)
Definition loja_ab : Estoque.t :=
  let s := fst (Estoque.adicionar_produto Estoque.init "A" "M" "Preta" 5 49.9 5) in
  fst (Estoque.adicionar_produto s "B" "G" "Azul" 2 129.9 5).

(** One product, 10 in stock at 49.90. *)
Definition loja_a10 : Estoque.t :=
  fst (Estoque.adicionar_produto Estoque.init "Camiseta" "M" "Preta" 10 49.9 5).

(** One product with more units in stock than a double can count. *)
Definition loja_enorme : Estoque.t :=
  fst (Estoque.adicionar_produto Estoque.init "Botao" "U" "Branca" (2 ^ 1024) 49.9 5).

(** The ledger [loja_enorme] is left with by the sale of all its units. *)
Definition loja_enorme_vendida : Estoque.t :=
  fst (fst (Estoque.registrar_venda cpython311 loja_enorme [(1, 2 ^ 1024)] 0)).

(** Two products below their threshold, the first with the larger stock. *)
Definition loja_baixa : Estoque.t :=
  let s := fst (Estoque.adicionar_produto Estoque.init "Vestido" "P" "Azul" 3 89.9 5) in
  fst (Estoque.adicionar_produto s "Vestido" "M" "Azul" 1 89.9 5).

(** [loja_a10] after the sale of 3 units, the sale it records, and a later
    change of price. *)
Definition loja_a10_vendida : Estoque.t :=
  fst (fst (Estoque.registrar_venda cpython311 loja_a10 [(1, 3)] 0)).

Definition venda_a10 : Venda.t := Venda.mk 1 [(1, 3)] 0 149.7%float.

Definition novo_preco : list Alteracao :=
  [Build_Alteracao 1 None None None None (Some 100%float) None].

(** The sale of 3 A and 1 B. *)
Definition venda_ab : Venda.t :=
  Venda.mk 1 [(1, 3); (2, 1)] 63929787296789012 279.6%float.

(** [loja_ab] after a sale of both products and the removal of B. *)
Definition loja_sem_b : Estoque.t :=
  let s := fst (fst (Estoque.registrar_venda cpython311 loja_ab [(1, 3); (2, 1)]
                       63929787296789012)) in
  fst (Estoque.remover_produto s 2).

(** ** Notions of the further properties *)

(** One call of a public operation of the ledger, whatever its arguments. *)
Inductive chamada (py : Plataforma) (s : Estoque.t) : Estoque.t -> Prop :=
| chamada_adicionar nome tamanho cor quantidade preco limite_minimo :
    chamada py s (fst (Estoque.adicionar_produto s nome tamanho cor quantidade preco
                         limite_minimo))
| chamada_atualizar id_produto nome tamanho cor quantidade preco limite_minimo :
    chamada py s (fst (Estoque.atualizar_produto s id_produto nome tamanho cor
                         quantidade preco limite_minimo))
| chamada_remover id_produto :
    chamada py s (fst (Estoque.remover_produto s id_produto))
| chamada_vender produtos_vendidos agora :
    chamada py s (fst (fst (Estoque.registrar_venda py s produtos_vendidos agora))).

(** The ledgers a program can reach from [Estoque()]. *)
Inductive acessivel (py : Plataforma) : Estoque.t -> Prop :=
| acessivel_init : acessivel py Estoque.init
| acessivel_chamada s s' : acessivel py s -> chamada py s s' -> acessivel py s'.

(** Product identifiers: the keys of the map ascend in its order, lie between
    1 and the counter, which is not negative, and each product carries its
    key as identifier. *)
Definition ids_de_produto_em_ordem (s : Estoque.t) : Prop :=
  StronglySorted Z.lt (Dict.keys (Estoque.produtos s))
  /\ Forall (fun k => 1 <= k <= Estoque.ultimo_id_produto s)
       (Dict.keys (Estoque.produtos s))
  /\ Forall (fun kp => Produto.id (snd kp) = fst kp) (Estoque.produtos s)
  /\ 0 <= Estoque.ultimo_id_produto s.

(** Sale identifiers: they ascend in the order of the sales and lie between
    1 and the counter, which is not negative. *)
Definition ids_de_venda_em_ordem (s : Estoque.t) : Prop :=
  StronglySorted Z.lt (map Venda.id (Estoque.vendas s))
  /\ Forall (fun v => 1 <= Venda.id v <= Estoque.ultimo_id_venda s) (Estoque.vendas s)
  /\ 0 <= Estoque.ultimo_id_venda s.

(** The units in stock, all products together. *)
Definition estoque_total (ps : Dict.t Produto.t) : Z :=
  fold_right Z.add 0 (map Produto.quantidade (Dict.values ps)).

(** The units asked for, all line items together. *)
Definition pedido_total (itens : list (Z * Z)) : Z :=
  fold_right Z.add 0 (map snd itens).

(** The products of the line items as the sale leaves them, in item order. *)
Definition vendidos (ps : Dict.t Produto.t) (itens : list (Z * Z)) : list Produto.t :=
  flat_map
    (fun item =>
       match Dict.get ps (fst item) with
       | Some p => [Produto.com_quantidade p (Produto.quantidade p - snd item)]
       | None => []
       end)
    itens.

(** Names in ascending order. *)
Definition por_nome (a b : Produto.t) : Prop :=
  String.leb (Produto.nome a) (Produto.nome b) = true.

(** The line of [gerar_relatorio_estoque] for a product that can be printed,
    and the lines for a sequence of them. *)
Definition texto_linha_estoque (p : Produto.t) : string :=
  texto_produto p ++ " | Status: "
  ++ (if Produto.quantidade p <? Produto.limite_minimo p then "ESTOQUE BAIXO" else "OK")
  ++ nl.

Fixpoint linhas_estoque (produtos : list Produto.t) : string :=
  match produtos with
  | [] => ""
  | p :: resto => texto_linha_estoque p ++ linhas_estoque resto
  end.

(** The four header lines of [gerar_relatorio_vendas]. *)
Definition cabecalho_vendas (py : Plataforma) (data_inicio data_fim : datetime)
    (vendas_periodo : list Venda.t) : string :=
  "===== RELATÓRIO DE VENDAS =====" ++ nl
  ++ "Período: "
  ++ (if data_inicio =? datetime_min then "Início"
      else strftime py data_inicio "%d/%m/%Y")
  ++ " a "
  ++ (if data_fim =? datetime_max then "Hoje" else strftime py data_fim "%d/%m/%Y")
  ++ nl
  ++ "Total de vendas: " ++ str_len vendas_periodo ++ nl
  ++ "Valor total: R$" ++ fmt2f (sum py (map Venda.valor_total vendas_periodo))
  ++ nl ++ nl.

(** The ledger of the interface after the sale of 2 jeans. *)
Definition loja_teste_vendida : Estoque.t :=
  fst (fst (Estoque.registrar_venda cpython311 Interface.init [(4, 2)] 0)).

(** * Properties *)

(** ** Strings and dictionaries *)

Lemma append_assoc (a b c : string) : (a ++ b) ++ c = a ++ (b ++ c).
Proof. induction a as [|x a IH]; simpl; [reflexivity | now rewrite IH]. Qed.

Section DictFacts.
Context {V : Type}.
Implicit Types (d : Dict.t V) (k : Z) (v : V).

Lemma get_set_eq d k v : Dict.get (Dict.set d k v) k = Some v.
Proof.
  induction d as [|[k' v'] d IH]; simpl.
  - now rewrite Z.eqb_refl.
  - destruct (k' =? k) eqn:E; simpl; rewrite E; [reflexivity | exact IH].
Qed.

Lemma get_set_neq d k k' v : k <> k' -> Dict.get (Dict.set d k v) k' = Dict.get d k'.
Proof.
  intros Hne. induction d as [|[k0 v0] d IH]; simpl.
  - destruct (k =? k') eqn:E; [apply Z.eqb_eq in E; contradiction | reflexivity].
  - destruct (k0 =? k) eqn:E; simpl.
    + apply Z.eqb_eq in E; subst k0.
      destruct (k =? k') eqn:E'; [apply Z.eqb_eq in E'; contradiction | reflexivity].
    + destruct (k0 =? k'); [reflexivity | exact IH].
Qed.

Lemma keys_set_present d k v v0 :
  Dict.get d k = Some v0 -> Dict.keys (Dict.set d k v) = Dict.keys d.
Proof.
  induction d as [|[k' v'] d IH]; simpl; [discriminate |].
  destruct (k' =? k) eqn:E; simpl; [reflexivity |].
  intros H. f_equal. now apply IH.
Qed.

Lemma get_In d k v : Dict.get d k = Some v -> In (k, v) d.
Proof.
  induction d as [|[k' v'] d IH]; simpl; [discriminate |].
  destruct (k' =? k) eqn:E.
  - apply Z.eqb_eq in E; subst k'. intros [= ->]. now left.
  - intros H. right. now apply IH.
Qed.

Lemma get_None_not_In d k : Dict.get d k = None -> ~ In k (Dict.keys d).
Proof.
  induction d as [|[k' v'] d IH]; simpl; [tauto |].
  destruct (k' =? k) eqn:E; [discriminate |].
  apply Z.eqb_neq in E. intros H [Hk | Hk]; [contradiction | now apply IH].
Qed.

Lemma In_wf_get d k v : Dict.wf d -> In (k, v) d -> Dict.get d k = Some v.
Proof.
  unfold Dict.wf. induction d as [|[k' v'] d IH]; simpl; [tauto |].
  intros Hnd [Heq | Hin].
  - injection Heq as -> ->. now rewrite Z.eqb_refl.
  - inversion Hnd as [|? ? Hnotin Hnd']; subst.
    destruct (k' =? k) eqn:E; [| now apply IH].
    apply Z.eqb_eq in E; subst k'. exfalso. apply Hnotin.
    change k with (fst (k, v)). now apply in_map.
Qed.

Lemma values_set_Forall (P : V -> Prop) d k v :
  Forall P (Dict.values d) -> P v -> Forall P (Dict.values (Dict.set d k v)).
Proof.
  unfold Dict.values. intros Hd Hv.
  induction d as [|[k' v'] d IH]; simpl.
  - now constructor.
  - inversion Hd as [|? ? Hv' Hd']; subst.
    destruct (k' =? k); simpl; constructor; auto.
Qed.

Lemma values_del_Forall (P : V -> Prop) d k :
  Forall P (Dict.values d) -> Forall P (Dict.values (Dict.del d k)).
Proof.
  unfold Dict.values. intros Hd.
  induction d as [|[k' v'] d IH]; simpl; [constructor |].
  inversion Hd as [|? ? Hv' Hd']; subst.
  destruct (k' =? k); simpl; [assumption | constructor; auto].
Qed.
End DictFacts.

(** ** Integers as text *)

Lemma str_int_imprimivel n : imprimivel n -> str_int n = Retorna (decimal n).
Proof.
  unfold imprimivel, str_int. intros H. apply Z.ltb_lt in H. now rewrite H.
Qed.

Lemma str_int_nao_imprimivel n : ~ imprimivel n -> str_int n = Levanta ValueError.
Proof.
  unfold imprimivel, str_int. intros H.
  destruct (Z.abs n <? 10 ^ int_max_str_digits) eqn:E; [| reflexivity].
  apply Z.ltb_lt in E. contradiction.
Qed.

Lemma imprimivel_dec n : imprimivel n \/ ~ imprimivel n.
Proof. unfold imprimivel. lia. Qed.

Lemma str_int_excecao n e : str_int n = Levanta e -> e = ValueError.
Proof.
  destruct (imprimivel_dec n) as [H | H].
  - rewrite (str_int_imprimivel n H). discriminate.
  - rewrite (str_int_nao_imprimivel n H). congruence.
Qed.

Lemma msg_nao_existe_imprimivel i :
  imprimivel i ->
  Estoque.msg_nao_existe i
  = Retorna ("Erro: Produto com ID " ++ decimal i ++ " não existe.").
Proof. intros H. unfold Estoque.msg_nao_existe. now rewrite (str_int_imprimivel i H). Qed.

Lemma msg_nao_existe_nao_imprimivel i :
  ~ imprimivel i -> Estoque.msg_nao_existe i = Levanta ValueError.
Proof.
  intros H. unfold Estoque.msg_nao_existe. now rewrite (str_int_nao_imprimivel i H).
Qed.

Lemma msg_apenas_imprimivel p :
  imprimivel (Produto.quantidade p) ->
  Estoque.msg_apenas p
  = Retorna ("Erro: Produto " ++ Produto.nome p ++ " tem apenas "
             ++ decimal (Produto.quantidade p) ++ " unidades em estoque.").
Proof. intros H. unfold Estoque.msg_apenas. now rewrite (str_int_imprimivel _ H). Qed.

Lemma msg_apenas_nao_imprimivel p :
  ~ imprimivel (Produto.quantidade p) -> Estoque.msg_apenas p = Levanta ValueError.
Proof.
  intros H. unfold Estoque.msg_apenas. now rewrite (str_int_nao_imprimivel _ H).
Qed.

Lemma msg_alerta_imprimivel p :
  imprimivel (Produto.quantidade p) ->
  Estoque.msg_alerta p
  = Retorna ("ALERTA: Estoque baixo para " ++ Produto.nome p ++ " (Quantidade: "
             ++ decimal (Produto.quantidade p) ++ ")").
Proof. intros H. unfold Estoque.msg_alerta. now rewrite (str_int_imprimivel _ H). Qed.

Lemma msg_alerta_excecao p e : Estoque.msg_alerta p = Levanta e -> e = ValueError.
Proof.
  unfold Estoque.msg_alerta. destruct (str_int (Produto.quantidade p)) eqn:E; simpl.
  - discriminate.
  - intros [= <-]. eapply str_int_excecao; eauto.
Qed.

Lemma msg_excecao_ValueError (m : Resultado string) :
  (exists n, m = Estoque.msg_nao_existe n) \/ (exists p, m = Estoque.msg_apenas p) ->
  (exists linha, m = Retorna linha) \/ m = Levanta ValueError.
Proof.
  intros [[n ->] | [p ->]].
  - destruct (imprimivel_dec n) as [H | H].
    + left. rewrite (msg_nao_existe_imprimivel n H). eauto.
    + right. now apply msg_nao_existe_nao_imprimivel.
  - destruct (imprimivel_dec (Produto.quantidade p)) as [H | H].
    + left. rewrite (msg_apenas_imprimivel p H). eauto.
    + right. now apply msg_apenas_nao_imprimivel.
Qed.

(** ** Validation *)

Lemma verificar_invalido ps itens :
  (exists item, In item itens /\ item_invalido ps item) ->
  exists m, Estoque.verificar ps itens = Some m
            /\ ((exists linha, m = Retorna linha) \/ m = Levanta ValueError).
Proof.
  induction itens as [|[i q] itens IH]; intros [item [Hin Hbad]]; simpl in *.
  - contradiction.
  - destruct (Dict.get ps i) as [p|] eqn:Hget.
    + destruct (Produto.quantidade p <? q) eqn:Hlt.
      * eexists. split; [reflexivity |]. apply msg_excecao_ValueError. eauto.
      * destruct Hin as [<- | Hin].
        -- unfold item_invalido in Hbad; simpl in Hbad. rewrite Hget in Hbad.
           apply Z.ltb_ge in Hlt. lia.
        -- apply IH. eauto.
    + eexists. split; [reflexivity |]. apply msg_excecao_ValueError. eauto.
Qed.

Lemma verificar_None ps itens :
  Estoque.verificar ps itens = None ->
  forall i q, In (i, q) itens ->
    exists p, Dict.get ps i = Some p /\ q <= Produto.quantidade p.
Proof.
  induction itens as [|[i0 q0] itens IH]; simpl; intros Hv i q Hin; [contradiction |].
  destruct (Dict.get ps i0) as [p|] eqn:Hget; [| discriminate].
  destruct (Produto.quantidade p <? q0) eqn:Hlt; [discriminate |].
  apply Z.ltb_ge in Hlt.
  destruct Hin as [[= <- <-] | Hin]; eauto.
Qed.

Lemma verificar_valido ps itens :
  (forall i q, In (i, q) itens ->
     exists p, Dict.get ps i = Some p /\ q <= Produto.quantidade p) ->
  Estoque.verificar ps itens = None.
Proof.
  induction itens as [|[i0 q0] itens IH]; simpl; intros H; [reflexivity |].
  destruct (H i0 q0 (or_introl eq_refl)) as [p [Hget Hle]].
  rewrite Hget. apply Z.ltb_ge in Hle. rewrite Hle. apply IH.
  intros i q Hiq. apply (H i q). now right.
Qed.

Lemma verificar_falha ps itens f :
  falha_de ps itens = Some f ->
  match f with
  | UnknownProduct i =>
      Dict.get ps i = None
      /\ Estoque.verificar ps itens = Some (Estoque.msg_nao_existe i)
  | InsufficientStock i disponivel pedido =>
      exists p, Dict.get ps i = Some p /\ disponivel = Produto.quantidade p
                /\ disponivel < pedido
                /\ Estoque.verificar ps itens = Some (Estoque.msg_apenas p)
  end.
Proof.
  induction itens as [|[i q] itens IH]; simpl; [discriminate |].
  destruct (Dict.get ps i) as [p|] eqn:Hget.
  - destruct (Produto.quantidade p <? q) eqn:Hlt; [| exact IH].
    intros [= <-]. apply Z.ltb_lt in Hlt. eauto 7.
  - intros [= <-]. eauto.
Qed.

(** C1. A sale with a line item that fails validation (unknown product, or
    stock strictly below the quantity asked for) changes nothing: the ledger
    the call leaves is the ledger given, product quantities, sales and both
    counters included. The call prints one error line and returns [None], or
    it raises [ValueError] with nothing printed, when the integer that line
    would show has more than 4300 digits. *)
Theorem registrar_venda_atomica :
  forall (py : Plataforma) (s : Estoque.t) (produtos_vendidos : Dict.t Z)
         (agora : datetime),
    (exists item, In item (Dict.items produtos_vendidos)
                  /\ item_invalido (Estoque.produtos s) item) ->
    (exists erro,
       Estoque.registrar_venda py s produtos_vendidos agora = (s, [erro], Retorna None))
    \/ Estoque.registrar_venda py s produtos_vendidos agora = (s, [], Levanta ValueError).
Proof.
  intros py s pv agora H. apply verificar_invalido in H.
  destruct H as [m [Hv [[linha ->] | ->]]]; unfold Estoque.registrar_venda; rewrite Hv.
  - left. eauto.
  - now right.
Qed.

(** The atomicity example of the specification: A has 5, B has 2, and the
    sale of 3 A and 5 B leaves A at 5. *)
Lemma registrar_venda_atomica_exemplo :
  (exists item, In item (Dict.items [(1, 3); (2, 5)])
                /\ item_invalido (Estoque.produtos loja_ab) item)
  /\ ((exists erro,
         Estoque.registrar_venda cpython311 loja_ab [(1, 3); (2, 5)] 0
         = (loja_ab, [erro], Retorna None))
      \/ Estoque.registrar_venda cpython311 loja_ab [(1, 3); (2, 5)] 0
         = (loja_ab, [], Levanta ValueError)).
Proof.
  assert (H : exists item, In item (Dict.items [(1, 3); (2, 5)])
                           /\ item_invalido (Estoque.produtos loja_ab) item).
  { exists (2, 5). split; [right; left; reflexivity | vm_compute; reflexivity]. }
  split; [exact H |].
  exact (registrar_venda_atomica cpython311 loja_ab [(1, 3); (2, 5)] 0 H).
Defined.

(** The two outcomes of a failed validation: the line of the specification's
    example, and the exception for an identifier of 5001 digits. *)
Example registrar_venda_atomica_casos :
  Estoque.registrar_venda cpython311 loja_ab [(1, 3); (2, 5)] 0
  = (loja_ab, ["Erro: Produto B tem apenas 2 unidades em estoque."], Retorna None)
  /\ Estoque.registrar_venda cpython311 loja_ab [(10 ^ 5000, 1)] 0
     = (loja_ab, [], Levanta ValueError).
Proof. split; vm_compute; reflexivity. Qed.

(** C3, as the code has it. A failing sale never returns a structured
    failure and leaves the ledger as it was. When the integer its message
    shows (the unknown identifier, or the quantity on hand) has at most 4300
    digits, it returns the bare [None] whatever the reason and prints the
    reason of the first failing line item as one line of text: the identifier
    for an unknown product, the product's name and the quantity on hand for
    insufficient stock. Otherwise building the message raises [ValueError]
    and nothing is printed. *)
Theorem registrar_venda_falha_impressa :
  forall (py : Plataforma) (s : Estoque.t) (produtos_vendidos : Dict.t Z)
         (agora : datetime) (f : Falha),
    falha_de (Estoque.produtos s) (Dict.items produtos_vendidos) = Some f ->
    match f with
    | UnknownProduct i =>
        Dict.get (Estoque.produtos s) i = None
        /\ (imprimivel i ->
              Estoque.registrar_venda py s produtos_vendidos agora
              = (s, ["Erro: Produto com ID " ++ decimal i ++ " não existe."],
                 Retorna None))
        /\ (~ imprimivel i ->
              Estoque.registrar_venda py s produtos_vendidos agora
              = (s, [], Levanta ValueError))
    | InsufficientStock i disponivel pedido =>
        exists p, Dict.get (Estoque.produtos s) i = Some p
                  /\ disponivel = Produto.quantidade p
                  /\ disponivel < pedido
                  /\ (imprimivel disponivel ->
                        Estoque.registrar_venda py s produtos_vendidos agora
                        = (s, ["Erro: Produto " ++ Produto.nome p ++ " tem apenas "
                               ++ decimal disponivel ++ " unidades em estoque."],
                           Retorna None))
                  /\ (~ imprimivel disponivel ->
                        Estoque.registrar_venda py s produtos_vendidos agora
                        = (s, [], Levanta ValueError))
    end.
Proof.
  intros py s pv agora f Hf. apply verificar_falha in Hf.
  destruct f as [i | i disponivel pedido].
  - destruct Hf as [Hget Hv]. split; [assumption |].
    unfold Estoque.registrar_venda. rewrite Hv. split; intros H.
    + now rewrite (msg_nao_existe_imprimivel i H).
    + now rewrite (msg_nao_existe_nao_imprimivel i H).
  - destruct Hf as [p [Hget [-> [Hlt Hv]]]]. exists p.
    split; [assumption |]. split; [reflexivity |]. split; [assumption |].
    unfold Estoque.registrar_venda. rewrite Hv. split; intros H.
    + now rewrite (msg_apenas_imprimivel p H).
    + now rewrite (msg_apenas_nao_imprimivel p H).
Qed.

Lemma registrar_venda_falha_impressa_exemplo :
  falha_de (Estoque.produtos loja_ab) (Dict.items [(1, 3); (2, 5)])
    = Some (InsufficientStock 2 2 5)
  /\ exists p, Dict.get (Estoque.produtos loja_ab) 2 = Some p
               /\ 2 = Produto.quantidade p
               /\ 2 < 5
               /\ (imprimivel 2 ->
                     Estoque.registrar_venda cpython311 loja_ab [(1, 3); (2, 5)] 0
                     = (loja_ab,
                        ["Erro: Produto " ++ Produto.nome p ++ " tem apenas "
                         ++ decimal 2 ++ " unidades em estoque."],
                        Retorna None))
               /\ (~ imprimivel 2 ->
                     Estoque.registrar_venda cpython311 loja_ab [(1, 3); (2, 5)] 0
                     = (loja_ab, [], Levanta ValueError)).
Proof.
  assert (H : falha_de (Estoque.produtos loja_ab) (Dict.items [(1, 3); (2, 5)])
              = Some (InsufficientStock 2 2 5)) by (vm_compute; reflexivity).
  split; [exact H |].
  exact (registrar_venda_falha_impressa cpython311 loja_ab [(1, 3); (2, 5)] 0 _ H).
Defined.

(** C3, as the specification states it, fails: an unknown product and an
    insufficient stock are different failures, and both calls return the same
    undifferentiated [None]. *)
Lemma registrar_venda_retorna_None_indistinto :
  falha_de (Estoque.produtos loja_ab) (Dict.items [(9, 1)]) = Some (UnknownProduct 9)
  /\ falha_de (Estoque.produtos loja_ab) (Dict.items [(2, 5)])
     = Some (InsufficientStock 2 2 5)
  /\ snd (Estoque.registrar_venda cpython311 loja_ab [(9, 1)] 0) = Retorna None
  /\ snd (Estoque.registrar_venda cpython311 loja_ab [(2, 5)] 0) = Retorna None.
Proof. vm_compute. repeat split. Qed.

(** C5. The low-stock check is a function of quantity and threshold alone,
    true exactly when the quantity is strictly below the threshold: false at
    the threshold, true one unit below it. *)
Theorem verificar_estoque_baixo_estrito :
  forall p : Produto.t,
    (Produto.verificar_estoque_baixo p = true
       <-> Produto.quantidade p < Produto.limite_minimo p)
    /\ (Produto.quantidade p = Produto.limite_minimo p ->
          Produto.verificar_estoque_baixo p = false)
    /\ (Produto.quantidade p = Produto.limite_minimo p - 1 ->
          Produto.verificar_estoque_baixo p = true)
    /\ (forall p' : Produto.t,
          Produto.quantidade p' = Produto.quantidade p ->
          Produto.limite_minimo p' = Produto.limite_minimo p ->
          Produto.verificar_estoque_baixo p' = Produto.verificar_estoque_baixo p).
Proof.
  intros p. unfold Produto.verificar_estoque_baixo. repeat split.
  - apply Z.ltb_lt.
  - apply Z.ltb_lt.
  - intros H. apply Z.ltb_ge. lia.
  - intros H. apply Z.ltb_lt. lia.
  - intros p' -> ->. reflexivity.
Qed.

(** C10. A sale of no items always succeeds: it appends a sale with no line
    items and total 0, numbered one past the last sale, advances the sale
    counter by one, prints nothing and leaves the product map as it was. *)
Theorem registrar_venda_vazia :
  forall (py : Plataforma) (s : Estoque.t) (agora : datetime),
    Estoque.registrar_venda py s Dict.empty agora
    = (Estoque.mk (Estoque.produtos s)
         (Estoque.vendas s
          ++ [Venda.mk (Estoque.ultimo_id_venda s + 1) Dict.empty agora 0%float])%list
         (Estoque.ultimo_id_produto s)
         (Estoque.ultimo_id_venda s + 1),
       [],
       Retorna
         (Some (Venda.mk (Estoque.ultimo_id_venda s + 1) Dict.empty agora 0%float))).
Proof. intros py s agora. reflexivity. Qed.

(** ** The commit loop *)

Lemma baixar_precos itens : forall ps ps' saida e,
  Estoque.baixar ps itens = (ps', saida, e) ->
  forall k, option_map Produto.preco (Dict.get ps' k)
            = option_map Produto.preco (Dict.get ps k).
Proof.
  induction itens as [|[i q] itens IH]; simpl; intros ps ps' saida e H k.
  - now injection H as <- _ _.
  - destruct (Dict.get ps i) as [p|] eqn:Hget; [| now injection H as <- _ _].
    set (p' := Produto.atualizar_quantidade p (- q)) in *.
    assert (Hset : option_map Produto.preco (Dict.get (Dict.set ps i p') k)
                   = option_map Produto.preco (Dict.get ps k)).
    { destruct (Z.eq_dec i k) as [<- | Hne].
      - now rewrite get_set_eq, Hget.
      - now rewrite get_set_neq. }
    destruct (Produto.verificar_estoque_baixo p').
    + destruct (Estoque.msg_alerta p') as [alerta|e'].
      * destruct (Estoque.baixar _ itens) as [[ps1 saida1] e1] eqn:Hb.
        injection H as <- _ _. now rewrite (IH _ _ _ _ Hb k).
      * injection H as <- _ _. exact Hset.
    + now rewrite (IH _ _ _ _ H k).
Qed.

Lemma alerta_imprimivel_ext a b item :
  Dict.get a (fst item) = Dict.get b (fst item) ->
  alerta_imprimivel a item -> alerta_imprimivel b item.
Proof. unfold alerta_imprimivel. intros E H p Hp. apply H. now rewrite E. Qed.

Lemma baixar_ok itens : forall ps,
  NoDup (map fst itens) ->
  (forall i q, In (i, q) itens -> exists p, Dict.get ps i = Some p) ->
  (forall i q, In (i, q) itens -> alerta_imprimivel ps (i, q)) ->
  exists ps' saida,
    Estoque.baixar ps itens = (ps', saida, None)
    /\ Dict.keys ps' = Dict.keys ps
    /\ (forall i q, In (i, q) itens ->
          exists p, Dict.get ps i = Some p
                    /\ Dict.get ps' i
                       = Some (Produto.com_quantidade p (Produto.quantidade p - q)))
    /\ (forall i, ~ In i (map fst itens) -> Dict.get ps' i = Dict.get ps i).
Proof.
  induction itens as [|[i0 q0] itens IH]; simpl; intros ps Hnd Hex Hal.
  - exists ps, []. split; [reflexivity |]. split; [reflexivity |].
    split; [intros i q [] | reflexivity].
  - inversion Hnd as [|? ? Hnotin Hnd']; subst.
    destruct (Hex i0 q0 (or_introl eq_refl)) as [p0 Hget0]. rewrite Hget0.
    set (p0' := Produto.atualizar_quantidade p0 (- q0)).
    assert (Hne : forall i q, In (i, q) itens -> i0 <> i).
    { intros i q Hin ->. apply Hnotin. change i with (fst (i, q)). now apply in_map. }
    destruct (IH (Dict.set ps i0 p0') Hnd') as [ps' [saida [Hb [Hk [Hin Hout]]]]].
    { intros i q Hiq. destruct (Hex i q (or_intror Hiq)) as [p Hp].
      exists p. rewrite get_set_neq; eauto. }
    { intros i q Hiq. apply (alerta_imprimivel_ext ps); [| apply Hal; now right].
      simpl. symmetry. apply get_set_neq. eauto. }
    assert (Hrest : Dict.keys ps' = Dict.keys ps
                    /\ (forall i q, (i0, q0) = (i, q) \/ In (i, q) itens ->
                          exists p, Dict.get ps i = Some p
                                    /\ Dict.get ps' i
                                       = Some (Produto.com_quantidade p
                                                 (Produto.quantidade p - q)))
                    /\ (forall i, ~ (i0 = i \/ In i (map fst itens)) ->
                          Dict.get ps' i = Dict.get ps i)).
    { split; [| split].
      - rewrite Hk. eapply keys_set_present; eauto.
      - intros i q [[= <- <-] | Hiq].
        + exists p0. split; [assumption |].
          rewrite (Hout i0 Hnotin), get_set_eq. reflexivity.
        + destruct (Hin i q Hiq) as [p [Hp Hp']].
          rewrite get_set_neq in Hp by eauto. eauto.
      - intros i Hi. rewrite Hout by tauto. apply get_set_neq. tauto. }
    destruct (Produto.verificar_estoque_baixo p0') eqn:Hlow.
    + assert (Himp : imprimivel (Produto.quantidade p0')).
      { apply (Hal i0 q0 (or_introl eq_refl) p0 Hget0).
        unfold Produto.verificar_estoque_baixo in Hlow. apply Z.ltb_lt in Hlow.
        exact Hlow. }
      rewrite (msg_alerta_imprimivel p0' Himp), Hb.
      eexists; eexists. split; [reflexivity | exact Hrest].
    + rewrite Hb. eexists; eexists. split; [reflexivity | exact Hrest].
Qed.

Lemma get_values {V : Type} (d : Dict.t V) k v :
  Dict.get d k = Some v -> In v (Dict.values d).
Proof.
  intros H. apply get_In in H. unfold Dict.values.
  change v with (snd (k, v)). now apply in_map.
Qed.

Lemma baixar_nao_negativas itens : forall ps,
  NoDup (map fst itens) ->
  (forall i q, In (i, q) itens ->
     exists p, Dict.get ps i = Some p /\ q <= Produto.quantidade p) ->
  Forall (fun p => 0 <= Produto.quantidade p) (Dict.values ps) ->
  Forall (fun p => 0 <= Produto.quantidade p)
    (Dict.values (fst (fst (Estoque.baixar ps itens)))).
Proof.
  induction itens as [|[i0 q0] itens IH]; simpl; intros ps Hnd Hok Hpos; [assumption |].
  inversion Hnd as [|? ? Hnotin Hnd']; subst.
  destruct (Hok i0 q0 (or_introl eq_refl)) as [p0 [Hget0 Hle0]]. rewrite Hget0.
  set (p0' := Produto.atualizar_quantidade p0 (- q0)).
  set (ps1 := Dict.set ps i0 p0').
  assert (Hpos1 : Forall (fun p => 0 <= Produto.quantidade p) (Dict.values ps1)).
  { apply values_set_Forall; [assumption |]. simpl. lia. }
  specialize (IH ps1 Hnd').
  assert (Hrec : Forall (fun p => 0 <= Produto.quantidade p)
                   (Dict.values (fst (fst (Estoque.baixar ps1 itens))))).
  { apply IH; [| assumption].
    intros i q Hiq. destruct (Hok i q (or_intror Hiq)) as [p [Hp Hle]].
    exists p. split; [| assumption]. unfold ps1. rewrite get_set_neq; [assumption |].
    intros ->. apply Hnotin. change i with (fst (i, q)). now apply in_map. }
  destruct (Produto.verificar_estoque_baixo p0').
  - destruct (Estoque.msg_alerta p0'); [| exact Hpos1].
    destruct (Estoque.baixar ps1 itens) as [[ps' saida] e]. exact Hrec.
  - exact Hrec.
Qed.

(** ** The total of a sale *)

Lemma parcelas_por_precos_iff ps itens : forall xs,
  Venda.parcelas ps itens = Retorna xs
  <-> parcelas_por_precos (fun i => option_map Produto.preco (Dict.get ps i)) itens
      = Some xs.
Proof.
  induction itens as [|[i q] itens IH]; simpl; intros xs.
  - split; intros [= ->]; reflexivity.
  - unfold Dict.getitem, mul_float_int.
    destruct (Dict.get ps i) as [p|]; simpl; [| split; discriminate].
    destruct (float_of_int q) as [y|e]; simpl; [| split; discriminate].
    destruct (Venda.parcelas ps itens) as [outras|e];
      destruct (parcelas_por_precos _ itens) as [outras'|]; simpl.
    + destruct (IH outras) as [H _]. specialize (H eq_refl). injection H as <-.
      split; intros [= <-]; reflexivity.
    + destruct (IH outras) as [H _]. specialize (H eq_refl). discriminate.
    + destruct (IH outras') as [_ H]. specialize (H eq_refl). discriminate.
    + split; discriminate.
Qed.

Lemma parcelas_por_precos_ext f g itens :
  (forall i, f i = g i) -> parcelas_por_precos f itens = parcelas_por_precos g itens.
Proof.
  intros H. induction itens as [|[i q] itens IH]; simpl; [reflexivity |].
  now rewrite H, IH.
Qed.

Lemma parcelas_por_precos_definido f itens :
  (forall i q, In (i, q) itens ->
     (exists x, f i = Some x) /\ (exists y, float_of_int q = Retorna y)) ->
  exists xs, parcelas_por_precos f itens = Some xs.
Proof.
  induction itens as [|[i q] itens IH]; simpl; intros H; [eauto |].
  destruct (H i q (or_introl eq_refl)) as [[x ->] [y ->]].
  destruct IH as [xs ->]; [intros; apply H; auto | eauto].
Qed.

(** What a call that returned a sale went through. *)
Lemma registrar_venda_Some py s pv agora s1 saida venda :
  Estoque.registrar_venda py s pv agora = (s1, saida, Retorna (Some venda)) ->
  exists ps xs,
    Estoque.verificar (Estoque.produtos s) (Dict.items pv) = None
    /\ Estoque.baixar (Estoque.produtos s) (Dict.items pv) = (ps, saida, None)
    /\ Venda.parcelas ps (Dict.items pv) = Retorna xs
    /\ venda = Venda.mk (Estoque.ultimo_id_venda s + 1) pv agora (sum py xs)
    /\ s1 = Estoque.mk ps (Estoque.vendas s ++ [venda])%list
              (Estoque.ultimo_id_produto s) (Estoque.ultimo_id_venda s + 1).
Proof.
  unfold Estoque.registrar_venda, Venda.calcular_valor_total. simpl.
  destruct (Estoque.verificar _ _) as [[linha|e]|]; [discriminate | discriminate |].
  destruct (Estoque.baixar _ _) as [[ps out] [e|]]; [discriminate |].
  destruct (Venda.parcelas ps _) as [xs|e] eqn:Hs; simpl; [| discriminate].
  intros [= <- <- <-]. exists ps, xs. repeat split; try reflexivity. exact Hs.
Qed.

Lemma registrar_venda_total py s pv agora s1 saida venda :
  Estoque.registrar_venda py s pv agora = (s1, saida, Retorna (Some venda)) ->
  total_por_precos py (preco_em s) (Dict.items pv) = Some (Venda.valor_total venda).
Proof.
  intros H. apply registrar_venda_Some in H.
  destruct H as [ps [xs [_ [Hb [Hs [-> _]]]]]]. simpl.
  apply parcelas_por_precos_iff in Hs. unfold total_por_precos.
  rewrite (parcelas_por_precos_ext (preco_em s)
             (fun i => option_map Produto.preco (Dict.get ps i))), Hs; [reflexivity |].
  intros i. unfold preco_em. symmetry. eapply baixar_precos; eauto.
Qed.

(** ** Settlement *)

(** C2, as the code has it. When every requested product exists with stock at
    least the quantity asked for, every quantity asked for converts to a
    double, and every low-stock alert the sale triggers shows a quantity of at
    most 4300 digits, the sale succeeds: each requested product loses exactly
    the quantity asked for and nothing else of it changes, the other products
    and the order of the map stay as they were, the sale carrying the
    requested mapping is appended, the sale counter advances by one, and the
    total is the sum over the line items of unit price at settlement time
    times quantity. *)
Theorem registrar_venda_sucesso :
  forall (py : Plataforma) (s : Estoque.t) (produtos_vendidos : Dict.t Z)
         (agora : datetime),
    Dict.wf produtos_vendidos ->
    (forall i q, In (i, q) (Dict.items produtos_vendidos) ->
       exists p, Dict.get (Estoque.produtos s) i = Some p /\ q <= Produto.quantidade p) ->
    (forall i q, In (i, q) (Dict.items produtos_vendidos) ->
       exists y, float_of_int q = Retorna y) ->
    (forall i q, In (i, q) (Dict.items produtos_vendidos) ->
       alerta_imprimivel (Estoque.produtos s) (i, q)) ->
    exists s' saida venda,
      Estoque.registrar_venda py s produtos_vendidos agora
      = (s', saida, Retorna (Some venda))
      /\ Estoque.vendas s' = (Estoque.vendas s ++ [venda])%list
      /\ Venda.produtos venda = produtos_vendidos
      /\ Venda.id venda = Estoque.ultimo_id_venda s + 1
      /\ Venda.data venda = agora
      /\ Estoque.ultimo_id_venda s' = Estoque.ultimo_id_venda s + 1
      /\ Estoque.ultimo_id_produto s' = Estoque.ultimo_id_produto s
      /\ Dict.keys (Estoque.produtos s') = Dict.keys (Estoque.produtos s)
      /\ (forall i q, In (i, q) (Dict.items produtos_vendidos) ->
            exists p, Dict.get (Estoque.produtos s) i = Some p
                      /\ Dict.get (Estoque.produtos s') i
                         = Some (Produto.com_quantidade p (Produto.quantidade p - q)))
      /\ (forall i, ~ In i (Dict.keys produtos_vendidos) ->
            Dict.get (Estoque.produtos s') i = Dict.get (Estoque.produtos s) i)
      /\ total_por_precos py (preco_em s) (Dict.items produtos_vendidos)
         = Some (Venda.valor_total venda).
Proof.
  intros py s pv agora Hwf Hok Hconv Hal.
  destruct (baixar_ok (Dict.items pv) (Estoque.produtos s) Hwf) as
    [ps [saida [Hb [Hkeys [Hin Hout]]]]].
  { intros i q Hiq. destruct (Hok i q Hiq) as [p [Hp _]]. eauto. }
  { exact Hal. }
  destruct (parcelas_por_precos_definido
              (fun i => option_map Produto.preco (Dict.get ps i)) (Dict.items pv))
    as [xs Hxs].
  { intros i q Hiq. split; [| eauto].
    destruct (Hin i q Hiq) as [p [_ Hp]]. rewrite Hp. simpl. eauto. }
  apply parcelas_por_precos_iff in Hxs.
  assert (Hrun : Estoque.registrar_venda py s pv agora
                 = (Estoque.mk ps (Estoque.vendas s
                                   ++ [Venda.mk (Estoque.ultimo_id_venda s + 1) pv agora
                                         (sum py xs)])%list
                      (Estoque.ultimo_id_produto s) (Estoque.ultimo_id_venda s + 1),
                    saida,
                    Retorna (Some (Venda.mk (Estoque.ultimo_id_venda s + 1) pv agora
                                     (sum py xs))))).
  { unfold Estoque.registrar_venda, Venda.calcular_valor_total.
    rewrite (verificar_valido _ _ Hok), Hb. simpl. rewrite Hxs. reflexivity. }
  eexists; eexists; eexists. split; [exact Hrun |].
  simpl. repeat (split; [first [reflexivity | assumption] |]).
  exact (registrar_venda_total _ _ _ _ _ _ _ Hrun).
Qed.

(** The settlement example of the specification, on either interpreter:
    3 units at 49.90 out of 10 leave 7 and total 149.70, and the sale is the
    one the ledger holds. *)
Example registrar_venda_exemplo :
  forall py, py = cpython311 \/ py = cpython312 ->
    exists s' saida venda,
      Estoque.registrar_venda py loja_a10 [(1, 3)] 0 = (s', saida, Retorna (Some venda))
      /\ option_map Produto.quantidade (Dict.get (Estoque.produtos s') 1) = Some 7
      /\ Venda.valor_total venda = 149.7%float
      /\ fmt2f (Venda.valor_total venda) = "149.70"
      /\ Estoque.vendas s' = [venda].
Proof.
  intros py [-> | ->]; eexists; eexists; eexists; vm_compute; repeat split.
Qed.

Lemma registrar_venda_sucesso_exemplo :
  Dict.wf [(1, 3); (2, 1)]
  /\ (forall i q, In (i, q) (Dict.items [(1, 3); (2, 1)]) ->
        exists p, Dict.get (Estoque.produtos loja_ab) i = Some p
                  /\ q <= Produto.quantidade p)
  /\ (forall i q, In (i, q) (Dict.items [(1, 3); (2, 1)]) ->
        exists y, float_of_int q = Retorna y)
  /\ (forall i q, In (i, q) (Dict.items [(1, 3); (2, 1)]) ->
        alerta_imprimivel (Estoque.produtos loja_ab) (i, q))
  /\ exists s' saida venda,
       Estoque.registrar_venda cpython311 loja_ab [(1, 3); (2, 1)] 0
       = (s', saida, Retorna (Some venda))
       /\ Estoque.vendas s' = (Estoque.vendas loja_ab ++ [venda])%list
       /\ Venda.produtos venda = [(1, 3); (2, 1)]
       /\ Venda.id venda = Estoque.ultimo_id_venda loja_ab + 1
       /\ Venda.data venda = 0
       /\ Estoque.ultimo_id_venda s' = Estoque.ultimo_id_venda loja_ab + 1
       /\ Estoque.ultimo_id_produto s' = Estoque.ultimo_id_produto loja_ab
       /\ Dict.keys (Estoque.produtos s') = Dict.keys (Estoque.produtos loja_ab)
       /\ (forall i q, In (i, q) (Dict.items [(1, 3); (2, 1)]) ->
             exists p, Dict.get (Estoque.produtos loja_ab) i = Some p
                       /\ Dict.get (Estoque.produtos s') i
                          = Some (Produto.com_quantidade p (Produto.quantidade p - q)))
       /\ (forall i, ~ In i (Dict.keys [(1, 3); (2, 1)]) ->
             Dict.get (Estoque.produtos s') i = Dict.get (Estoque.produtos loja_ab) i)
       /\ total_por_precos cpython311 (preco_em loja_ab) (Dict.items [(1, 3); (2, 1)])
          = Some (Venda.valor_total venda).
Proof.
  assert (Hwf : Dict.wf [(1, 3); (2, 1)]).
  { unfold Dict.wf. simpl. repeat constructor; simpl; intuition discriminate. }
  assert (Hok : forall i q, In (i, q) (Dict.items [(1, 3); (2, 1)]) ->
                  exists p, Dict.get (Estoque.produtos loja_ab) i = Some p
                            /\ q <= Produto.quantidade p).
  { intros i q [[= <- <-] | [[= <- <-] | []]]; eexists;
      (split; [vm_compute; reflexivity | simpl; lia]). }
  assert (Hconv : forall i q, In (i, q) (Dict.items [(1, 3); (2, 1)]) ->
                    exists y, float_of_int q = Retorna y).
  { intros i q [[= <- <-] | [[= <- <-] | []]]; eexists; vm_compute; reflexivity. }
  assert (Hal : forall i q, In (i, q) (Dict.items [(1, 3); (2, 1)]) ->
                  alerta_imprimivel (Estoque.produtos loja_ab) (i, q)).
  { intros i q [[= <- <-] | [[= <- <-] | []]] p Hp _;
      vm_compute in Hp; injection Hp as <-; vm_compute; reflexivity. }
  split; [exact Hwf |]. split; [exact Hok |]. split; [exact Hconv |]. split; [exact Hal |].
  exact (registrar_venda_sucesso cpython311 loja_ab [(1, 3); (2, 1)] 0 Hwf Hok Hconv Hal).
Defined.

(** C2, as the specification states it, fails: the only product exists and has
    exactly the 2^1024 units asked for, yet the sale does not succeed. The
    product of its price by the quantity raises [OverflowError] after the
    stock was taken and the sale counter advanced, and no sale is recorded. *)
Lemma registrar_venda_quantidade_enorme :
  (forall i q, In (i, q) (Dict.items [(1, 2 ^ 1024)]) ->
     exists p, Dict.get (Estoque.produtos loja_enorme) i = Some p
               /\ q <= Produto.quantidade p)
  /\ snd (Estoque.registrar_venda cpython311 loja_enorme [(1, 2 ^ 1024)] 0)
     = Levanta OverflowError
  /\ Estoque.vendas loja_enorme_vendida = []
  /\ Estoque.ultimo_id_venda loja_enorme_vendida = 1
  /\ option_map Produto.quantidade (Dict.get (Estoque.produtos loja_enorme_vendida) 1)
     = Some 0.
Proof.
  split.
  - intros i q [[= <- <-] | []]. eexists. split; [vm_compute; reflexivity | simpl; lia].
  - vm_compute. repeat split.
Qed.

Lemma aplicar_todas_vendas alteracoes : forall s,
  Estoque.vendas (aplicar_todas s alteracoes) = Estoque.vendas s.
Proof.
  unfold aplicar_todas.
  induction alteracoes as [|a alteracoes IH]; intros s; simpl; [reflexivity |].
  rewrite IH. unfold aplicar, Estoque.atualizar_produto.
  destruct (Dict.get (Estoque.produtos s) (alt_id a)); reflexivity.
Qed.

(** C8. The total stored in a committed sale is the sum over its line items
    of unit price at settlement time times quantity, the sale is the last of
    the ledger's sales, and no sequence of updates, of prices or of anything
    else, applied to that ledger or to any later one, changes the sales a
    ledger holds: they are the very records they were, totals included. *)
Theorem valor_total_instantaneo :
  forall (py : Plataforma) (s : Estoque.t) (produtos_vendidos : Dict.t Z)
         (agora : datetime) (s1 : Estoque.t) (saida : list string) (venda : Venda.t)
         (alteracoes : list Alteracao),
    Estoque.registrar_venda py s produtos_vendidos agora
    = (s1, saida, Retorna (Some venda)) ->
    total_por_precos py (preco_em s) (Dict.items produtos_vendidos)
    = Some (Venda.valor_total venda)
    /\ Estoque.vendas (aplicar_todas s1 alteracoes) = (Estoque.vendas s ++ [venda])%list
    /\ (forall s2 : Estoque.t,
          Estoque.vendas (aplicar_todas s2 alteracoes) = Estoque.vendas s2).
Proof.
  intros py s pv agora s1 saida venda alteracoes H. split; [| split].
  - eapply registrar_venda_total; eauto.
  - assert (Hs1 : Estoque.vendas s1 = (Estoque.vendas s ++ [venda])%list).
    { apply registrar_venda_Some in H.
      destruct H as [ps [total [_ [_ [_ [_ ->]]]]]]. reflexivity. }
    rewrite <- Hs1. apply aplicar_todas_vendas.
  - intros s2. apply aplicar_todas_vendas.
Qed.

(** After the sale of 3 units at 49.90 the price is raised to 100: the stored
    total is still 149.70, while the current price would give 300. *)
Lemma valor_total_instantaneo_exemplo :
  Estoque.registrar_venda cpython311 loja_a10 [(1, 3)] 0
    = (loja_a10_vendida, [], Retorna (Some venda_a10))
  /\ (total_por_precos cpython311 (preco_em loja_a10) (Dict.items [(1, 3)])
      = Some (Venda.valor_total venda_a10)
      /\ Estoque.vendas (aplicar_todas loja_a10_vendida novo_preco)
         = (Estoque.vendas loja_a10 ++ [venda_a10])%list
      /\ (forall s2 : Estoque.t,
            Estoque.vendas (aplicar_todas s2 novo_preco) = Estoque.vendas s2))
  /\ preco_em (aplicar_todas loja_a10_vendida novo_preco) 1 = Some 100%float
  /\ total_por_precos cpython311 (preco_em (aplicar_todas loja_a10_vendida novo_preco))
       (Dict.items [(1, 3)])
     = Some 300%float.
Proof.
  assert (H : Estoque.registrar_venda cpython311 loja_a10 [(1, 3)] 0
              = (loja_a10_vendida, [], Retorna (Some venda_a10)))
    by (vm_compute; reflexivity).
  split; [exact H |]. split; [| split].
  - exact (valor_total_instantaneo cpython311 loja_a10 [(1, 3)] 0 loja_a10_vendida []
             venda_a10 novo_preco H).
  - vm_compute. reflexivity.
  - vm_compute. reflexivity.
Defined.

(** ** The quantity invariant *)

Lemma passo_nao_negativas py s s' :
  passo py s s' -> quantidades_nao_negativas s -> quantidades_nao_negativas s'.
Proof.
  unfold quantidades_nao_negativas.
  intros [nome tamanho cor q preco lim Hq
         | i nome tamanho cor q preco lim Hq
         | i
         | pv agora Hwf Hq] Hinv.
  - simpl. apply values_set_Forall; [assumption | exact Hq].
  - unfold Estoque.atualizar_produto.
    destruct (Dict.get (Estoque.produtos s) i) as [p|] eqn:Hget; simpl; [| assumption].
    apply values_set_Forall; [assumption |]. simpl.
    destruct q as [q|]; simpl; [now apply Hq |].
    rewrite Forall_forall in Hinv. apply Hinv. eapply get_values; eauto.
  - unfold Estoque.remover_produto.
    destruct (Dict.contains (Estoque.produtos s) i); simpl; [| assumption].
    now apply values_del_Forall.
  - unfold Estoque.registrar_venda.
    destruct (Estoque.verificar (Estoque.produtos s) (Dict.items pv))
      as [[linha|e]|] eqn:Hv; simpl; [assumption | assumption |].
    pose proof (baixar_nao_negativas (Dict.items pv) (Estoque.produtos s) Hwf
                  (verificar_None _ _ Hv) Hinv) as Hb.
    destruct (Estoque.baixar (Estoque.produtos s) (Dict.items pv)) as [[ps saida] [e|]];
      simpl in *; [assumption |].
    destruct (Venda.calcular_valor_total py _ ps); simpl; assumption.
Qed.

(** C4. In every ledger reachable from the empty one by adding products with
    a quantity of at least zero, updating with any supplied quantity of at
    least zero, removing, and selling quantities of at least zero, every
    stored product has a quantity of at least zero. *)
Theorem quantidade_nunca_negativa :
  forall (py : Plataforma) (s : Estoque.t),
    alcancavel py s -> quantidades_nao_negativas s.
Proof.
  intros py s H. induction H as [|s s' _ IH Hp].
  - constructor.
  - eapply passo_nao_negativas; eauto.
Qed.

Lemma quantidade_nunca_negativa_exemplo :
  alcancavel cpython311 loja_a10_vendida /\ quantidades_nao_negativas loja_a10_vendida.
Proof.
  assert (H : alcancavel cpython311 loja_a10_vendida).
  { apply alcancavel_passo with (s := loja_a10).
    - apply alcancavel_passo with (s := Estoque.init); [constructor |].
      exact (passo_adicionar cpython311 Estoque.init "Camiseta" "M" "Preta" 10 49.9%float 5
               ltac:(lia)).
    - apply (passo_vender cpython311 loja_a10 [(1, 3)] 0).
      + unfold Dict.wf. simpl. constructor; [simpl; tauto | constructor].
      + intros i q [[= <- <-] | []]. lia. }
  split; [exact H | exact (quantidade_nunca_negativa cpython311 loja_a10_vendida H)].
Defined.

(** ** Updates *)

(** C9. An update of an unknown identifier returns [None] and the ledger as
    it was. An update of a known identifier returns the product as stored
    afterwards: its identifier kept; name, size and color replaced by a
    supplied text that is not empty and kept otherwise; quantity, price and
    threshold replaced by any supplied value, zero included, and kept when
    absent. Every other product, the order of the map, the sales and both
    counters are as they were. *)
Theorem atualizar_produto_parcial :
  forall (s : Estoque.t) (i : Z) (nome tamanho cor : option string)
         (quantidade : option Z) (preco : option float) (limite_minimo : option Z),
    let r := Estoque.atualizar_produto s i nome tamanho cor quantidade preco
               limite_minimo in
    match Dict.get (Estoque.produtos s) i with
    | None => r = (s, None)
    | Some p =>
        exists p',
          snd r = Some p'
          /\ Dict.get (Estoque.produtos (fst r)) i = Some p'
          /\ Produto.id p' = Produto.id p
          /\ texto_aplicado nome (Produto.nome p) (Produto.nome p')
          /\ texto_aplicado tamanho (Produto.tamanho p) (Produto.tamanho p')
          /\ texto_aplicado cor (Produto.cor p) (Produto.cor p')
          /\ valor_aplicado quantidade (Produto.quantidade p) (Produto.quantidade p')
          /\ valor_aplicado preco (Produto.preco p) (Produto.preco p')
          /\ valor_aplicado limite_minimo (Produto.limite_minimo p)
               (Produto.limite_minimo p')
          /\ (forall k, k <> i ->
                Dict.get (Estoque.produtos (fst r)) k = Dict.get (Estoque.produtos s) k)
          /\ Dict.keys (Estoque.produtos (fst r)) = Dict.keys (Estoque.produtos s)
          /\ Estoque.vendas (fst r) = Estoque.vendas s
          /\ Estoque.ultimo_id_produto (fst r) = Estoque.ultimo_id_produto s
          /\ Estoque.ultimo_id_venda (fst r) = Estoque.ultimo_id_venda s
    end.
Proof.
  intros s i nome tamanho cor quantidade preco limite_minimo r. subst r.
  unfold Estoque.atualizar_produto.
  destruct (Dict.get (Estoque.produtos s) i) as [p|] eqn:Hget; [| reflexivity].
  assert (Htexto : forall novo antes,
             texto_aplicado novo antes (Estoque.texto_ou novo antes)).
  { intros novo antes. split.
    - intros n -> Hn. destruct n; [congruence | reflexivity].
    - intros [-> | ->]; reflexivity. }
  assert (Hvalor : forall (A : Type) (novo : option A) antes,
             valor_aplicado novo antes (Estoque.valor_ou novo antes)).
  { intros A novo antes. split; [intros x -> | intros ->]; reflexivity. }
  eexists. split; [reflexivity |]. simpl.
  split; [apply get_set_eq |]. split; [reflexivity |].
  repeat (split; [first [apply Htexto | apply Hvalor] |]).
  split; [intros k Hk; apply get_set_neq; congruence |].
  split; [eapply keys_set_present; eauto |].
  repeat split.
Qed.

(** An update that sets quantity and price to zero and passes an empty name. *)
Example atualizar_produto_zero :
  Estoque.atualizar_produto loja_a10 1 (Some "") None (Some "Azul") (Some 0)
    (Some 0%float) None
  = (Estoque.mk [(1, Produto.mk 1 "Camiseta" "M" "Azul" 0 0%float 5)] [] 1 0,
     Some (Produto.mk 1 "Camiseta" "M" "Azul" 0 0%float 5)).
Proof. vm_compute. reflexivity. Qed.

(** ** The low-stock list *)

Lemma inserir_perm p xs : Permutation (p :: xs) (Interface.inserir p xs).
Proof.
  induction xs as [|x xs IH]; simpl; [reflexivity |].
  destruct (Produto.quantidade p <=? Produto.quantidade x); [reflexivity |].
  rewrite perm_swap. now constructor.
Qed.

Lemma sorted_por_quantidade_perm xs :
  Permutation xs (Interface.sorted_por_quantidade xs).
Proof.
  induction xs as [|x xs IH]; simpl; [constructor |].
  rewrite <- inserir_perm. now constructor.
Qed.

Lemma inserir_HdRel a p xs :
  por_quantidade a p -> HdRel por_quantidade a xs ->
  HdRel por_quantidade a (Interface.inserir p xs).
Proof.
  intros Hap Hhd. destruct xs as [|x xs]; simpl; [now constructor |].
  destruct (Produto.quantidade p <=? Produto.quantidade x); constructor;
    [assumption | now inversion Hhd].
Qed.

Lemma inserir_Sorted p xs :
  Sorted por_quantidade xs -> Sorted por_quantidade (Interface.inserir p xs).
Proof.
  induction xs as [|x xs IH]; simpl; intros Hs.
  - repeat constructor.
  - destruct (Produto.quantidade p <=? Produto.quantidade x) eqn:E.
    + apply Z.leb_le in E. constructor; [assumption | now constructor].
    + apply Z.leb_gt in E. inversion Hs as [|? ? Hs' Hhd]; subst.
      constructor; [now apply IH |].
      apply inserir_HdRel; [unfold por_quantidade; lia | assumption].
Qed.

Lemma sorted_por_quantidade_Sorted xs :
  Sorted por_quantidade (Interface.sorted_por_quantidade xs).
Proof.
  induction xs as [|x xs IH]; simpl; [constructor | now apply inserir_Sorted].
Qed.

(** C6, as the code has it. The ledger's low-stock list holds exactly the
    stored products whose quantity is strictly below their threshold, in the
    order of the product map; the ascending order of quantity is that of the
    list the interface displays, which is the same products sorted. *)
Theorem listar_produtos_estoque_baixo_correto :
  forall s : Estoque.t,
    (forall p, In p (Estoque.listar_produtos_estoque_baixo s)
               <-> In p (Estoque.listar_produtos s)
                   /\ Produto.quantidade p < Produto.limite_minimo p)
    /\ Estoque.listar_produtos_estoque_baixo s
       = filter (fun p => Produto.quantidade p <? Produto.limite_minimo p)
           (Estoque.listar_produtos s)
    /\ Permutation (Estoque.listar_produtos_estoque_baixo s)
         (Interface.produtos_estoque_baixo_exibidos s)
    /\ Sorted por_quantidade (Interface.produtos_estoque_baixo_exibidos s).
Proof.
  intros s. split; [| split; [reflexivity | split]].
  - intros p. unfold Estoque.listar_produtos_estoque_baixo, Estoque.listar_produtos.
    rewrite filter_In. unfold Produto.verificar_estoque_baixo.
    now rewrite Z.ltb_lt.
  - apply sorted_por_quantidade_perm.
  - apply sorted_por_quantidade_Sorted.
Qed.

(** C6, as the specification states it, fails: of two low products the ledger
    lists the one stored first, with 3 units, before the one with 1 unit. *)
Lemma listar_produtos_estoque_baixo_fora_de_ordem :
  map Produto.quantidade (Estoque.listar_produtos_estoque_baixo loja_baixa) = [3; 1]
  /\ ~ Sorted por_quantidade (Estoque.listar_produtos_estoque_baixo loja_baixa).
Proof.
  split; [vm_compute; reflexivity |].
  intros H. remember (Estoque.listar_produtos_estoque_baixo loja_baixa) as l eqn:E.
  vm_compute in E. subst l.
  inversion H as [|? ? _ Hhd]; subst. inversion Hhd as [|? ? Hle]; subst.
  unfold por_quantidade in Hle. simpl in Hle. lia.
Qed.

(** ** The sales report *)

Lemma append_nil_r (a : string) : a ++ "" = a.
Proof. induction a as [|x a IH]; simpl; [reflexivity | now rewrite IH]. Qed.

Lemma corpo_item_imprimivel ps relatorio item :
  item_imprimivel ps item ->
  Estoque.corpo_item ps relatorio item = Retorna (relatorio ++ linha_item ps item).
Proof.
  destruct item as [i q]. intros [Hq Hi]. simpl in Hq, Hi.
  unfold Estoque.corpo_item, Dict.contains, Dict.getitem, linha_item. cbn [fst snd].
  destruct (Dict.get ps i) as [p|]; cbn [bind].
  - unfold Estoque.linha_produto. now rewrite (str_int_imprimivel q Hq).
  - unfold Estoque.linha_nao_encontrado.
    now rewrite (str_int_imprimivel q Hq), (str_int_imprimivel i (Hi eq_refl)).
Qed.

Lemma para_cada_itens ps itens : forall relatorio,
  Forall (item_imprimivel ps) itens ->
  para_cada itens (Estoque.corpo_item ps) relatorio
  = Retorna (relatorio ++ linhas ps itens).
Proof.
  induction itens as [|item itens IH]; intros relatorio H; cbn [para_cada linhas].
  - now rewrite append_nil_r.
  - inversion H as [|? ? Hitem Hrest]; subst.
    rewrite (corpo_item_imprimivel ps relatorio item Hitem). cbn [bind].
    rewrite (IH _ Hrest), append_assoc. reflexivity.
Qed.

Lemma Venda_str_imprimivel py v :
  imprimivel (Venda.id v) -> Venda.str py v = Retorna (texto_venda py v).
Proof. intros H. unfold Venda.str. now rewrite (str_int_imprimivel _ H). Qed.

Lemma para_cada_vendas py ps vendas : forall relatorio,
  Forall (venda_imprimivel ps) vendas ->
  para_cada vendas (Estoque.corpo_venda py ps) relatorio
  = Retorna (relatorio ++ blocos py ps vendas).
Proof.
  induction vendas as [|v vendas IH]; intros relatorio H; cbn [para_cada blocos].
  - now rewrite append_nil_r.
  - inversion H as [|? ? [Hid Hitens] Hrest]; subst.
    unfold Estoque.corpo_venda. rewrite (Venda_str_imprimivel py v Hid). cbn [bind].
    rewrite (para_cada_itens ps _ _ Hitens). cbn [bind]. rewrite (IH _ Hrest).
    unfold bloco. rewrite !append_assoc. reflexivity.
Qed.

Lemma blocos_app py ps l1 l2 :
  blocos py ps (l1 ++ l2)%list = blocos py ps l1 ++ blocos py ps l2.
Proof.
  induction l1 as [|v l1 IH]; cbn [blocos app]; [reflexivity |].
  now rewrite IH, append_assoc.
Qed.


Lemma no_periodo_iff di df v :
  Estoque.no_periodo di df v = true <-> di <= Venda.data v <= df.
Proof.
  unfold Estoque.no_periodo. rewrite andb_true_iff, !Z.leb_le. tauto.
Qed.

Lemma vendas_do_periodo_imprimiveis ps di df vendas :
  (forall v, In v vendas -> di <= Venda.data v <= df -> venda_imprimivel ps v) ->
  Forall (venda_imprimivel ps) (filter (Estoque.no_periodo di df) vendas).
Proof.
  intros H. apply Forall_forall. intros v Hv. apply filter_In in Hv.
  destruct Hv as [Hin Hper]. apply no_periodo_iff in Hper. now apply H.
Qed.

(** The report is produced when the sales of the period can be printed: its
    header, then one block per sale of the period. *)
Lemma gerar_relatorio_vendas_forma py s data_inicio data_fim :
  Forall (venda_imprimivel (Estoque.produtos s))
    (filter (Estoque.no_periodo
               (Estoque.valor_ou data_inicio datetime_min)
               (Estoque.valor_ou data_fim datetime_max))
       (Estoque.vendas s)) ->
  exists cabecalho,
    Estoque.gerar_relatorio_vendas py s data_inicio data_fim
    = Retorna (cabecalho
               ++ blocos py (Estoque.produtos s)
                    (filter (Estoque.no_periodo
                               (Estoque.valor_ou data_inicio datetime_min)
                               (Estoque.valor_ou data_fim datetime_max))
                       (Estoque.vendas s))).
Proof.
  intros H. unfold Estoque.gerar_relatorio_vendas. cbv zeta.
  rewrite (para_cada_vendas py _ _ _ H). eexists. reflexivity.
Qed.



(** The report of [loja_sem_b], as printed. *)
Example gerar_relatorio_vendas_exemplo :
  Estoque.gerar_relatorio_vendas cpython311 loja_sem_b None None
  = Retorna "===== RELATÓRIO DE VENDAS =====
Período: Início a Hoje
Total de vendas: 1
Valor total: R$279.60

Venda #1 | Data: 09/11/2026 02:14 | Valor: R$279.60
Produtos vendidos:
  - 3x A (Tamanho: M, Cor: Preta) - R$49.90 cada
  - 1x Produto ID 2 (não encontrado no estoque atual)

".
Proof. vm_compute. reflexivity. Qed.

(** * Further properties of the ledger *)

(** ** More on dictionaries *)

Section DictMaisFatos.
Context {V : Type}.
Implicit Types (d : Dict.t V) (k : Z) (v : V).

Lemma set_fresh d k v : Dict.get d k = None -> Dict.set d k v = (d ++ [(k, v)])%list.
Proof.
  induction d as [|[k' v'] d IH]; simpl; [reflexivity |].
  destruct (k' =? k); [discriminate |]. intros H. now rewrite IH.
Qed.

Lemma set_same d k v : Dict.get d k = Some v -> Dict.set d k v = d.
Proof.
  induction d as [|[k' v'] d IH]; simpl; [discriminate |].
  destruct (k' =? k) eqn:E.
  - now intros [= ->].
  - intros H. now rewrite IH.
Qed.

Lemma set_set d k v v' : Dict.set (Dict.set d k v) k v' = Dict.set d k v'.
Proof.
  induction d as [|[k0 v0] d IH]; simpl.
  - now rewrite Z.eqb_refl.
  - destruct (k0 =? k) eqn:E; simpl; rewrite E; [reflexivity | now rewrite IH].
Qed.

Lemma get_Some_set d k k' v v0 :
  Dict.get d k' = Some v0 -> exists v1, Dict.get (Dict.set d k v) k' = Some v1.
Proof.
  intros H. destruct (Z.eq_dec k k') as [<- | Hne].
  - rewrite get_set_eq. eauto.
  - rewrite get_set_neq by assumption. eauto.
Qed.

Lemma get_del_neq d k k' : k <> k' -> Dict.get (Dict.del d k) k' = Dict.get d k'.
Proof.
  intros Hne. induction d as [|[k0 v0] d IH]; simpl; [reflexivity |].
  destruct (k0 =? k) eqn:E; simpl.
  - apply Z.eqb_eq in E; subst k0.
    destruct (k =? k') eqn:E'; [apply Z.eqb_eq in E'; contradiction | reflexivity].
  - destruct (k0 =? k'); [reflexivity | exact IH].
Qed.

Lemma not_In_get_None d k : ~ In k (Dict.keys d) -> Dict.get d k = None.
Proof.
  induction d as [|[k' v'] d IH]; simpl; [reflexivity |].
  intros H. destruct (k' =? k) eqn:E.
  - apply Z.eqb_eq in E. tauto.
  - apply IH. tauto.
Qed.

Lemma get_del_eq d k : Dict.wf d -> Dict.get (Dict.del d k) k = None.
Proof.
  unfold Dict.wf. induction d as [|[k' v'] d IH]; simpl; [reflexivity |].
  intros Hnd. inversion Hnd as [|? ? Hnotin Hnd']; subst.
  destruct (k' =? k) eqn:E; simpl.
  - apply Z.eqb_eq in E; subst k'. now apply not_In_get_None.
  - rewrite E. now apply IH.
Qed.

Lemma keys_del d k :
  Dict.wf d -> Dict.keys (Dict.del d k) = filter (fun k' => negb (k' =? k)) (Dict.keys d).
Proof.
  unfold Dict.wf. induction d as [|[k' v'] d IH]; simpl; [reflexivity |].
  intros Hnd. inversion Hnd as [|? ? Hnotin Hnd']; subst.
  destruct (k' =? k) eqn:E; simpl.
  - apply Z.eqb_eq in E; subst k'. symmetry. apply forallb_filter_id.
    apply forallb_forall. intros x Hx. apply negb_true_iff, Z.eqb_neq.
    intros ->. contradiction.
  - f_equal. now apply IH.
Qed.

Lemma del_set_fresh d k v : Dict.get d k = None -> Dict.del (Dict.set d k v) k = d.
Proof.
  induction d as [|[k' v'] d IH]; simpl.
  - now rewrite Z.eqb_refl.
  - destruct (k' =? k) eqn:E; [discriminate |]. intros H. simpl. rewrite E.
    now rewrite IH.
Qed.

Lemma del_absent d k : Dict.get d k = None -> Dict.del d k = d.
Proof.
  induction d as [|[k' v'] d IH]; simpl; [reflexivity |].
  destruct (k' =? k); [discriminate |]. intros H. now rewrite IH.
Qed.

Lemma del_Forall (P : Z * V -> Prop) d k : Forall P d -> Forall P (Dict.del d k).
Proof.
  intros H. induction d as [|[k' v'] d IH]; simpl; [constructor |].
  inversion H; subst. destruct (k' =? k); [assumption | constructor; auto].
Qed.

Lemma set_Forall (P : Z * V -> Prop) d k v :
  Forall P d -> P (k, v) -> Forall P (Dict.set d k v).
Proof.
  intros H Hv. induction d as [|[k' v'] d IH]; simpl; [now constructor |].
  inversion H; subst. destruct (k' =? k) eqn:E.
  - apply Z.eqb_eq in E; subst k'. now constructor.
  - constructor; auto.
Qed.

Lemma keys_del_StronglySorted d k :
  StronglySorted Z.lt (Dict.keys d) -> StronglySorted Z.lt (Dict.keys (Dict.del d k)).
Proof.
  induction d as [|[k' v'] d IH]; simpl; [constructor |].
  intros H. apply StronglySorted_inv in H. destruct H as [Hs Hall].
  destruct (k' =? k); simpl; [assumption |].
  constructor; [now apply IH |].
  rewrite Forall_forall in *. intros x Hx. apply Hall.
  clear - Hx. induction d as [|[k0 v0] d IH]; simpl in *; [contradiction |].
  destruct (k0 =? k); simpl in *; tauto.
Qed.

Lemma keys_del_Forall (P : Z -> Prop) d k :
  Forall P (Dict.keys d) -> Forall P (Dict.keys (Dict.del d k)).
Proof.
  induction d as [|[k' v'] d IH]; simpl; [constructor |].
  intros H. inversion H; subst. destruct (k' =? k); simpl; [assumption |].
  constructor; auto.
Qed.
End DictMaisFatos.

Lemma StronglySorted_lt_NoDup (l : list Z) : StronglySorted Z.lt l -> NoDup l.
Proof.
  induction 1 as [|a l Hs IH Hall]; constructor; [| assumption].
  intros Hin. rewrite Forall_forall in Hall. specialize (Hall a Hin). lia.
Qed.

Lemma StronglySorted_lt_snoc (l : list Z) (a : Z) :
  StronglySorted Z.lt l -> Forall (fun x => x < a) l -> StronglySorted Z.lt (l ++ [a]).
Proof.
  induction 1 as [|b l Hs IH Hall]; intros Hlt; simpl.
  - repeat constructor.
  - inversion Hlt; subst. constructor; [now apply IH |].
    apply Forall_app. split; [assumption | now repeat constructor].
Qed.

Lemma keys_app {V : Type} (d1 d2 : Dict.t V) :
  Dict.keys (d1 ++ d2)%list = (Dict.keys d1 ++ Dict.keys d2)%list.
Proof. apply map_app. Qed.

(** ** Adding products *)

(** X1. [adicionar_produto] returns the product it stores under the next
    identifier, one past the counter, which it advances; the product is found
    under that identifier afterwards, every other identifier maps to what it
    did, sales and sale counter are untouched, and the next product added
    gets the identifier that follows. *)
Theorem adicionar_produto_sequencial :
  forall (s : Estoque.t) (nome tamanho cor : string) (quantidade : Z) (preco : float)
         (limite_minimo : Z),
    let r := Estoque.adicionar_produto s nome tamanho cor quantidade preco
               limite_minimo in
    Produto.id (snd r) = Estoque.ultimo_id_produto s + 1
    /\ Estoque.ultimo_id_produto (fst r) = Estoque.ultimo_id_produto s + 1
    /\ Dict.get (Estoque.produtos (fst r)) (Produto.id (snd r)) = Some (snd r)
    /\ (forall k, k <> Produto.id (snd r) ->
          Dict.get (Estoque.produtos (fst r)) k = Dict.get (Estoque.produtos s) k)
    /\ Estoque.vendas (fst r) = Estoque.vendas s
    /\ Estoque.ultimo_id_venda (fst r) = Estoque.ultimo_id_venda s
    /\ (forall nome' tamanho' cor' quantidade' preco' limite_minimo',
          Produto.id (snd (Estoque.adicionar_produto (fst r) nome' tamanho' cor'
                             quantidade' preco' limite_minimo'))
          = Produto.id (snd r) + 1).
Proof.
  intros s nome tamanho cor quantidade preco limite_minimo r. subst r. simpl.
  split; [reflexivity |]. split; [reflexivity |]. split; [apply get_set_eq |].
  split; [intros k Hk; apply get_set_neq; congruence |].
  repeat split.
Qed.

(** ** Identifiers *)

(** What every decrement of the second loop preserves holds of the product
    map the loop leaves, however the loop ends. *)
Lemma baixar_preserva (P : Dict.t Produto.t -> Prop) :
  (forall ps i p q, P ps -> Dict.get ps i = Some p ->
     P (Dict.set ps i (Produto.atualizar_quantidade p (- q)))) ->
  forall itens ps, P ps -> P (fst (fst (Estoque.baixar ps itens))).
Proof.
  intros Hpasso. induction itens as [|[i q] itens IH]; intros ps H; simpl; [assumption |].
  destruct (Dict.get ps i) as [p|] eqn:Hget; [| assumption].
  specialize (IH _ (Hpasso ps i p q H Hget)).
  destruct (Produto.verificar_estoque_baixo _); [| exact IH].
  destruct (Estoque.msg_alerta _) as [alerta|e]; [| exact (Hpasso ps i p q H Hget)].
  destruct (Estoque.baixar _ itens) as [[ps' saida] e]. exact IH.
Qed.

Lemma baixar_keys itens ps :
  Dict.keys (fst (fst (Estoque.baixar ps itens))) = Dict.keys ps.
Proof.
  apply (baixar_preserva (fun ps' => Dict.keys ps' = Dict.keys ps)); [| reflexivity].
  intros ps0 i p q H Hget. rewrite <- H. eapply keys_set_present; eauto.
Qed.

Lemma get_id_da_chave (ps : Dict.t Produto.t) i p :
  Forall (fun kp => Produto.id (snd kp) = fst kp) ps ->
  Dict.get ps i = Some p -> Produto.id p = i.
Proof.
  intros H Hget. apply get_In in Hget. rewrite Forall_forall in H.
  exact (H (i, p) Hget).
Qed.

Lemma baixar_ids itens ps :
  Forall (fun kp => Produto.id (snd kp) = fst kp) ps ->
  Forall (fun kp => Produto.id (snd kp) = fst kp) (fst (fst (Estoque.baixar ps itens))).
Proof.
  apply (baixar_preserva (Forall (fun kp => Produto.id (snd kp) = fst kp))).
  intros ps0 i p q H Hget.
  apply set_Forall; [assumption |]. simpl. eapply get_id_da_chave; eauto.
Qed.

(** The product map after a sale, whatever its outcome, is the one the
    second loop leaves, or the one given when validation fails. *)
Lemma registrar_venda_produtos py s pv agora :
  Estoque.produtos (fst (fst (Estoque.registrar_venda py s pv agora)))
  = Estoque.produtos s
  \/ Estoque.produtos (fst (fst (Estoque.registrar_venda py s pv agora)))
     = fst (fst (Estoque.baixar (Estoque.produtos s) (Dict.items pv))).
Proof.
  unfold Estoque.registrar_venda.
  destruct (Estoque.verificar _ _) as [[erro|e]|]; [now left | now left |]. right.
  destruct (Estoque.baixar _ _) as [[ps saida] [e|]]; [reflexivity |].
  destruct (Venda.calcular_valor_total _ _ _); reflexivity.
Qed.

Lemma registrar_venda_ultimo_id_produto py s pv agora :
  Estoque.ultimo_id_produto (fst (fst (Estoque.registrar_venda py s pv agora)))
  = Estoque.ultimo_id_produto s.
Proof.
  unfold Estoque.registrar_venda.
  destruct (Estoque.verificar _ _) as [[erro|e]|]; [reflexivity | reflexivity |].
  destruct (Estoque.baixar _ _) as [[ps saida] [e|]]; [reflexivity |].
  destruct (Venda.calcular_valor_total _ _ _); reflexivity.
Qed.

Lemma chamada_ids_de_produto py s s' :
  chamada py s s' -> ids_de_produto_em_ordem s -> ids_de_produto_em_ordem s'.
Proof.
  unfold ids_de_produto_em_ordem.
  intros [nome tamanho cor q preco lim
         | i nome tamanho cor q preco lim
         | i
         | pv agora] [Hs [Hb [Hid H0]]].
  - simpl. rewrite set_fresh.
    + rewrite keys_app. simpl. split; [| split; [| split]].
      * apply StronglySorted_lt_snoc; [assumption |].
        eapply Forall_impl; [| exact Hb]. simpl. intros; lia.
      * apply Forall_app. split.
        -- eapply Forall_impl; [| exact Hb]. simpl. intros; lia.
        -- constructor; [lia | constructor].
      * apply Forall_app. split; [assumption |].
        constructor; [reflexivity | constructor].
      * lia.
    + apply not_In_get_None. intros Hin. rewrite Forall_forall in Hb.
      specialize (Hb _ Hin). lia.
  - unfold Estoque.atualizar_produto.
    destruct (Dict.get (Estoque.produtos s) i) as [p|] eqn:Hget; simpl; [| tauto].
    rewrite (keys_set_present _ _ _ _ Hget). split; [assumption |].
    split; [assumption |]. split; [| assumption].
    apply set_Forall; [assumption |]. simpl. eapply get_id_da_chave; eauto.
  - unfold Estoque.remover_produto.
    destruct (Dict.contains (Estoque.produtos s) i); simpl; [| tauto].
    split; [now apply keys_del_StronglySorted |].
    split; [now apply keys_del_Forall |]. split; [now apply del_Forall | assumption].
  - rewrite registrar_venda_ultimo_id_produto.
    destruct (registrar_venda_produtos py s pv agora) as [-> | ->]; [tauto |].
    rewrite baixar_keys. split; [assumption |]. split; [assumption |].
    split; [now apply baixar_ids | assumption].
Qed.

Lemma acessivel_ids_de_produto py s : acessivel py s -> ids_de_produto_em_ordem s.
Proof.
  intros H. induction H as [|s s' _ IH Hc].
  - unfold ids_de_produto_em_ordem. simpl.
    split; [constructor |]. split; [constructor |]. split; [constructor | lia].
  - eapply chamada_ids_de_produto; eauto.
Qed.

(** X2. In every ledger a program can reach from [Estoque()], the product
    identifiers ascend in the order of the map (so no two products share
    one), lie between 1 and the product counter, and every product carries
    the identifier it is stored under. *)
Theorem ids_de_produto_invariante :
  forall (py : Plataforma) (s : Estoque.t),
    acessivel py s -> ids_de_produto_em_ordem s.
Proof. intros py s H. exact (acessivel_ids_de_produto py s H). Qed.

Lemma acessivel_carregar py s :
  acessivel py s -> acessivel py (Interface.carregar_produtos_teste s).
Proof.
  intros H. unfold Interface.carregar_produtos_teste. cbv zeta.
  repeat (eapply acessivel_chamada; [| apply chamada_adicionar]). exact H.
Qed.

Lemma acessivel_loja_teste_vendida : acessivel cpython311 loja_teste_vendida.
Proof.
  eapply acessivel_chamada; [| apply chamada_vender].
  apply acessivel_carregar. constructor.
Qed.

Lemma ids_de_produto_invariante_exemplo :
  acessivel cpython311 loja_teste_vendida /\ ids_de_produto_em_ordem loja_teste_vendida.
Proof.
  split; [exact acessivel_loja_teste_vendida |].
  exact (ids_de_produto_invariante cpython311 loja_teste_vendida
           acessivel_loja_teste_vendida).
Defined.

Lemma StronglySorted_lt_map_snoc {A : Type} (f : A -> Z) (l : list A) (a : A) :
  StronglySorted Z.lt (map f l) -> Forall (fun x => f x < f a) l ->
  StronglySorted Z.lt (map f (l ++ [a])).
Proof.
  intros Hs Hlt. rewrite map_app. simpl. apply StronglySorted_lt_snoc; [assumption |].
  rewrite Forall_map. exact Hlt.
Qed.

Lemma chamada_ids_de_venda py s s' :
  chamada py s s' -> ids_de_venda_em_ordem s -> ids_de_venda_em_ordem s'.
Proof.
  unfold ids_de_venda_em_ordem.
  intros [nome tamanho cor q preco lim
         | i nome tamanho cor q preco lim
         | i
         | pv agora] [Hs [Hb H0]].
  - simpl. tauto.
  - unfold Estoque.atualizar_produto.
    destruct (Dict.get (Estoque.produtos s) i); simpl; tauto.
  - unfold Estoque.remover_produto.
    destruct (Dict.contains (Estoque.produtos s) i); simpl; tauto.
  - unfold Estoque.registrar_venda, Venda.calcular_valor_total.
    destruct (Estoque.verificar _ _) as [[erro|e]|]; simpl; [tauto | tauto |].
    destruct (Estoque.baixar _ _) as [[ps saida] [e|]]; simpl; [tauto |].
    destruct (Venda.parcelas ps _) as [xs|e]; simpl.
    + split; [| split; [| lia]].
      * apply StronglySorted_lt_map_snoc; [assumption |].
        eapply Forall_impl; [| exact Hb]. simpl. intros; lia.
      * apply Forall_app. split.
        -- eapply Forall_impl; [| exact Hb]. simpl. intros; lia.
        -- constructor; [simpl; lia | constructor].
    + split; [assumption |]. split; [| lia].
      eapply Forall_impl; [| exact Hb]. simpl. intros; lia.
Qed.

(** X3. In every ledger a program can reach from [Estoque()], the sale
    identifiers ascend in the order the sales were recorded (so no two sales
    share one) and lie between 1 and the sale counter. *)
Theorem ids_de_venda_invariante :
  forall (py : Plataforma) (s : Estoque.t),
    acessivel py s -> ids_de_venda_em_ordem s.
Proof.
  intros py s H. induction H as [|s s' _ IH Hc].
  - unfold ids_de_venda_em_ordem. simpl.
    split; [constructor |]. split; [constructor | lia].
  - eapply chamada_ids_de_venda; eauto.
Qed.

Lemma ids_de_venda_invariante_exemplo :
  acessivel cpython311 loja_teste_vendida /\ ids_de_venda_em_ordem loja_teste_vendida.
Proof.
  split; [exact acessivel_loja_teste_vendida |].
  exact (ids_de_venda_invariante cpython311 loja_teste_vendida
           acessivel_loja_teste_vendida).
Defined.

(** ** Removing products *)

Lemma acessivel_wf py s : acessivel py s -> Dict.wf (Estoque.produtos s).
Proof.
  intros H. apply (acessivel_ids_de_produto py) in H.
  destruct H as [Hs _]. now apply StronglySorted_lt_NoDup.
Qed.

Lemma acessivel_proximo_id_livre py s :
  acessivel py s ->
  Dict.get (Estoque.produtos s) (Estoque.ultimo_id_produto s + 1) = None.
Proof.
  intros H. apply (acessivel_ids_de_produto py) in H. destruct H as [_ [Hb _]].
  apply not_In_get_None. intros Hin. rewrite Forall_forall in Hb.
  specialize (Hb _ Hin). lia.
Qed.

(** X4. [remover_produto] on a product map with unique keys answers whether
    the identifier was stored; afterwards the identifier is absent, every
    other identifier maps to what it did, the remaining products keep their
    order, and sales and both counters are untouched; when it answers
    [False] the ledger is the one given. *)
Theorem remover_produto_efeito :
  forall (s : Estoque.t) (i : Z),
    Dict.wf (Estoque.produtos s) ->
    let r := Estoque.remover_produto s i in
    (snd r = true <-> exists p, Dict.get (Estoque.produtos s) i = Some p)
    /\ (snd r = false -> fst r = s)
    /\ Dict.get (Estoque.produtos (fst r)) i = None
    /\ (forall k, k <> i ->
          Dict.get (Estoque.produtos (fst r)) k = Dict.get (Estoque.produtos s) k)
    /\ Dict.keys (Estoque.produtos (fst r))
       = filter (fun k => negb (k =? i)) (Dict.keys (Estoque.produtos s))
    /\ Estoque.vendas (fst r) = Estoque.vendas s
    /\ Estoque.ultimo_id_produto (fst r) = Estoque.ultimo_id_produto s
    /\ Estoque.ultimo_id_venda (fst r) = Estoque.ultimo_id_venda s.
Proof.
  intros s i Hwf r. subst r. unfold Estoque.remover_produto, Dict.contains.
  destruct (Dict.get (Estoque.produtos s) i) as [p|] eqn:Hget; simpl.
  - split; [split; eauto |]. split; [discriminate |].
    split; [now apply get_del_eq |].
    split; [intros k Hk; apply get_del_neq; congruence |].
    split; [now apply keys_del |]. repeat split.
  - split; [split; [discriminate | intros [p H]; discriminate] |].
    split; [reflexivity |]. split; [assumption |]. split; [reflexivity |].
    split; [| repeat split].
    rewrite <- (del_absent _ _ Hget) at 1. now apply keys_del.
Qed.

Lemma remover_produto_efeito_exemplo :
  Dict.wf (Estoque.produtos loja_ab)
  /\ ((snd (Estoque.remover_produto loja_ab 2) = true
       <-> exists p, Dict.get (Estoque.produtos loja_ab) 2 = Some p)
      /\ (snd (Estoque.remover_produto loja_ab 2) = false
          -> fst (Estoque.remover_produto loja_ab 2) = loja_ab)
      /\ Dict.get (Estoque.produtos (fst (Estoque.remover_produto loja_ab 2))) 2 = None
      /\ (forall k, k <> 2 ->
            Dict.get (Estoque.produtos (fst (Estoque.remover_produto loja_ab 2))) k
            = Dict.get (Estoque.produtos loja_ab) k)
      /\ Dict.keys (Estoque.produtos (fst (Estoque.remover_produto loja_ab 2)))
         = filter (fun k => negb (k =? 2)) (Dict.keys (Estoque.produtos loja_ab))
      /\ Estoque.vendas (fst (Estoque.remover_produto loja_ab 2)) = Estoque.vendas loja_ab
      /\ Estoque.ultimo_id_produto (fst (Estoque.remover_produto loja_ab 2))
         = Estoque.ultimo_id_produto loja_ab
      /\ Estoque.ultimo_id_venda (fst (Estoque.remover_produto loja_ab 2))
         = Estoque.ultimo_id_venda loja_ab).
Proof.
  assert (Hwf : Dict.wf (Estoque.produtos loja_ab)).
  { unfold Dict.wf. simpl. repeat constructor; simpl; intuition discriminate. }
  split; [exact Hwf | exact (remover_produto_efeito loja_ab 2 Hwf)].
Defined.

(** X5. In every reachable ledger, adding a product and then removing the
    identifier it was given brings back the product map, the sales and the
    sale counter of before; only the product counter stays advanced, so the
    identifier is not given out again. *)
Theorem adicionar_remover :
  forall (py : Plataforma) (s : Estoque.t) (nome tamanho cor : string)
         (quantidade : Z) (preco : float) (limite_minimo : Z),
    acessivel py s ->
    let r := Estoque.adicionar_produto s nome tamanho cor quantidade preco
               limite_minimo in
    Estoque.remover_produto (fst r) (Produto.id (snd r))
    = (Estoque.mk (Estoque.produtos s) (Estoque.vendas s)
         (Estoque.ultimo_id_produto s + 1) (Estoque.ultimo_id_venda s),
       true).
Proof.
  intros py s nome tamanho cor quantidade preco limite_minimo H r. subst r.
  unfold Estoque.remover_produto, Dict.contains. simpl.
  rewrite get_set_eq. unfold Estoque.com_produtos. simpl.
  rewrite del_set_fresh; [reflexivity |]. eapply acessivel_proximo_id_livre; eauto.
Qed.

Lemma adicionar_remover_exemplo :
  acessivel cpython311 loja_teste_vendida
  /\ Estoque.remover_produto
       (fst (Estoque.adicionar_produto loja_teste_vendida "Meia" "U" "Branca" 4
               9.9%float 5))
       (Produto.id (snd (Estoque.adicionar_produto loja_teste_vendida "Meia" "U" "Branca"
                           4 9.9%float 5)))
     = (Estoque.mk (Estoque.produtos loja_teste_vendida)
          (Estoque.vendas loja_teste_vendida)
          (Estoque.ultimo_id_produto loja_teste_vendida + 1)
          (Estoque.ultimo_id_venda loja_teste_vendida),
        true).
Proof.
  split; [exact acessivel_loja_teste_vendida |].
  exact (adicionar_remover cpython311 loja_teste_vendida "Meia" "U" "Branca" 4 9.9%float 5
           acessivel_loja_teste_vendida).
Defined.

(** X6. In every reachable ledger a new product goes last: the listing of
    the products after [adicionar_produto] is the listing of before followed
    by the product returned. *)
Theorem adicionar_produto_por_ultimo :
  forall (py : Plataforma) (s : Estoque.t) (nome tamanho cor : string)
         (quantidade : Z) (preco : float) (limite_minimo : Z),
    acessivel py s ->
    let r := Estoque.adicionar_produto s nome tamanho cor quantidade preco
               limite_minimo in
    Estoque.listar_produtos (fst r) = (Estoque.listar_produtos s ++ [snd r])%list.
Proof.
  intros py s nome tamanho cor quantidade preco limite_minimo H r. subst r.
  unfold Estoque.listar_produtos, Dict.values. simpl.
  rewrite set_fresh by (eapply acessivel_proximo_id_livre; eauto).
  now rewrite map_app.
Qed.

Lemma adicionar_produto_por_ultimo_exemplo :
  acessivel cpython311 loja_teste_vendida
  /\ Estoque.listar_produtos
       (fst (Estoque.adicionar_produto loja_teste_vendida "Meia" "U" "Branca" 4
               9.9%float 5))
     = (Estoque.listar_produtos loja_teste_vendida
        ++ [snd (Estoque.adicionar_produto loja_teste_vendida "Meia" "U" "Branca" 4
                   9.9%float 5)])%list.
Proof.
  split; [exact acessivel_loja_teste_vendida |].
  exact (adicionar_produto_por_ultimo cpython311 loja_teste_vendida "Meia" "U" "Branca" 4
           9.9%float 5 acessivel_loja_teste_vendida).
Defined.

(** ** Updating products *)

Lemma texto_ou_idem novo atual :
  Estoque.texto_ou novo (Estoque.texto_ou novo atual) = Estoque.texto_ou novo atual.
Proof. destruct novo as [[|c n]|]; reflexivity. Qed.

Lemma valor_ou_idem {A : Type} (novo : option A) atual :
  Estoque.valor_ou novo (Estoque.valor_ou novo atual) = Estoque.valor_ou novo atual.
Proof. destruct novo; reflexivity. Qed.

(** X7. [atualizar_produto] is idempotent: the same update applied a second
    time returns the same product and leaves the ledger of the first. *)
Theorem atualizar_produto_idempotente :
  forall (s : Estoque.t) (i : Z) (nome tamanho cor : option string)
         (quantidade : option Z) (preco : option float) (limite_minimo : option Z),
    let r := Estoque.atualizar_produto s i nome tamanho cor quantidade preco
               limite_minimo in
    Estoque.atualizar_produto (fst r) i nome tamanho cor quantidade preco limite_minimo
    = r.
Proof.
  intros s i nome tamanho cor quantidade preco limite_minimo r. subst r.
  unfold Estoque.atualizar_produto at 2 3.
  destruct (Dict.get (Estoque.produtos s) i) as [p|] eqn:Hget; simpl.
  - unfold Estoque.atualizar_produto. simpl. rewrite get_set_eq. simpl.
    rewrite !texto_ou_idem, !valor_ou_idem. unfold Estoque.com_produtos. simpl.
    now rewrite set_set.
  - unfold Estoque.atualizar_produto. now rewrite Hget.
Qed.

(** X8. An update that supplies nothing ([None] or the empty text for the
    three texts, [None] for the three numbers) returns the stored product and
    leaves the ledger exactly as it was. *)
Theorem atualizar_produto_sem_campos :
  forall (s : Estoque.t) (i : Z) (nome tamanho cor : option string),
    (nome = None \/ nome = Some "") ->
    (tamanho = None \/ tamanho = Some "") ->
    (cor = None \/ cor = Some "") ->
    Estoque.atualizar_produto s i nome tamanho cor None None None
    = (s, Dict.get (Estoque.produtos s) i).
Proof.
  intros s i nome tamanho cor Hn Ht Hc. unfold Estoque.atualizar_produto.
  destruct (Dict.get (Estoque.produtos s) i) as [p|] eqn:Hget; [| reflexivity].
  assert (E : forall novo atual, (novo = None \/ novo = Some "") ->
                Estoque.texto_ou novo atual = atual).
  { intros novo atual [-> | ->]; reflexivity. }
  rewrite !E by assumption. simpl. destruct p as [pi pn pt pc pq pp pl]. simpl.
  unfold Estoque.com_produtos. rewrite set_same by exact Hget.
  destruct s; reflexivity.
Qed.

Lemma atualizar_produto_sem_campos_exemplo :
  (Some "" = None \/ Some "" = Some "")
  /\ (@None string = None \/ @None string = Some "")
  /\ (@None string = None \/ @None string = Some "")
  /\ Estoque.atualizar_produto loja_ab 2 (Some "") None None None None None
     = (loja_ab, Dict.get (Estoque.produtos loja_ab) 2).
Proof.
  assert (H1 : Some "" = @None string \/ Some "" = Some "") by (right; reflexivity).
  assert (H2 : @None string = None \/ @None string = Some "") by (left; reflexivity).
  repeat (split; [assumption |]).
  exact (atualizar_produto_sem_campos loja_ab 2 (Some "") None None H1 H2 H2).
Defined.

(** ** More on sales *)

Lemma float_of_int_excecao q e : float_of_int q = Levanta e -> e = OverflowError.
Proof.
  unfold float_of_int.
  destruct (binary_normalize prec emax q 0 false); congruence.
Qed.

Lemma verificar_Some ps itens m :
  Estoque.verificar ps itens = Some m ->
  (exists linha, m = Retorna linha) \/ m = Levanta ValueError.
Proof.
  induction itens as [|[i q] itens IH]; simpl; [discriminate |].
  destruct (Dict.get ps i) as [p|].
  - destruct (Produto.quantidade p <? q); [| exact IH].
    intros [= <-]. apply msg_excecao_ValueError. eauto.
  - intros [= <-]. apply msg_excecao_ValueError. eauto.
Qed.

Lemma msg_alerta_Retorna p alerta :
  Estoque.msg_alerta p = Retorna alerta ->
  alerta = "ALERTA: Estoque baixo para " ++ Produto.nome p ++ " (Quantidade: "
           ++ decimal (Produto.quantidade p) ++ ")".
Proof.
  destruct (imprimivel_dec (Produto.quantidade p)) as [H | H].
  - rewrite (msg_alerta_imprimivel p H). congruence.
  - unfold Estoque.msg_alerta. rewrite (str_int_nao_imprimivel _ H). discriminate.
Qed.

(** The second loop, over line items whose products exist, ends normally or
    on the [ValueError] of an alert. *)
Lemma baixar_excecao itens : forall ps,
  (forall i q, In (i, q) itens -> exists p, Dict.get ps i = Some p) ->
  snd (Estoque.baixar ps itens) = None
  \/ snd (Estoque.baixar ps itens) = Some ValueError.
Proof.
  induction itens as [|[i0 q0] itens IH]; intros ps H; simpl; [now left |].
  destruct (H i0 q0 (or_introl eq_refl)) as [p0 Hget0]. rewrite Hget0.
  specialize (IH (Dict.set ps i0 (Produto.atualizar_quantidade p0 (- q0)))).
  assert (Hrest : forall i q, In (i, q) itens ->
            exists p, Dict.get (Dict.set ps i0 (Produto.atualizar_quantidade p0 (- q0))) i
                      = Some p).
  { intros i q Hiq. destruct (H i q (or_intror Hiq)) as [p Hp].
    eapply get_Some_set; eauto. }
  specialize (IH Hrest).
  destruct (Produto.verificar_estoque_baixo _); [| exact IH].
  destruct (Estoque.msg_alerta _) as [alerta|e] eqn:Hmsg.
  - destruct (Estoque.baixar _ itens) as [[ps' saida] e]. exact IH.
  - right. simpl. now rewrite (msg_alerta_excecao _ _ Hmsg).
Qed.

Lemma presente_por_keys {V W : Type} (a : Dict.t V) (b : Dict.t W) k v :
  Dict.keys a = Dict.keys b -> Dict.get a k = Some v -> exists w, Dict.get b k = Some w.
Proof.
  intros Hk Hget. destruct (Dict.get b k) as [w|] eqn:Hb; [eauto |].
  apply get_None_not_In in Hb. rewrite <- Hk in Hb.
  apply not_In_get_None in Hb. congruence.
Qed.

Lemma parcelas_sem_KeyError ps itens :
  (forall i q, In (i, q) itens -> exists p, Dict.get ps i = Some p) ->
  (exists xs, Venda.parcelas ps itens = Retorna xs)
  \/ Venda.parcelas ps itens = Levanta OverflowError.
Proof.
  induction itens as [|[i0 q0] itens IH]; intros H; simpl; [eauto |].
  destruct (H i0 q0 (or_introl eq_refl)) as [p0 Hget0].
  unfold Dict.getitem, mul_float_int. rewrite Hget0. simpl.
  destruct (float_of_int q0) as [y|e] eqn:Hconv; simpl.
  - destruct IH as [[xs ->] | ->];
      [intros i q Hiq; apply (H i q); now right | simpl; eauto | now right].
  - right. now rewrite (float_of_int_excecao _ _ Hconv).
Qed.

(** X9. Whatever the ledger and the mapping, [registrar_venda] never raises
    [KeyError]: it returns ([None] or the sale), or it raises the
    [OverflowError] of a quantity too large for a float, or the [ValueError]
    of an integer too long to print. *)
Theorem registrar_venda_sem_KeyError :
  forall (py : Plataforma) (s : Estoque.t) (produtos_vendidos : Dict.t Z)
         (agora : datetime),
    (exists r, snd (Estoque.registrar_venda py s produtos_vendidos agora) = Retorna r)
    \/ snd (Estoque.registrar_venda py s produtos_vendidos agora) = Levanta OverflowError
    \/ snd (Estoque.registrar_venda py s produtos_vendidos agora) = Levanta ValueError.
Proof.
  intros py s pv agora. unfold Estoque.registrar_venda, Venda.calcular_valor_total.
  destruct (Estoque.verificar _ _) as [m|] eqn:Hv.
  { destruct (verificar_Some _ _ _ Hv) as [[linha ->] | ->]; simpl; eauto. }
  assert (Hpres : forall i q, In (i, q) (Dict.items pv) ->
                    exists p, Dict.get (Estoque.produtos s) i = Some p).
  { intros i q Hiq. destruct (verificar_None _ _ Hv i q Hiq) as [p [Hp _]]. eauto. }
  pose proof (baixar_excecao _ _ Hpres) as He.
  pose proof (baixar_keys (Dict.items pv) (Estoque.produtos s)) as Hk.
  destruct (Estoque.baixar _ _) as [[ps saida] e]. simpl in He, Hk.
  destruct He as [-> | ->]; [| simpl; tauto]. simpl.
  assert (Hps : forall i q, In (i, q) (Dict.items pv) -> exists p, Dict.get ps i = Some p).
  { intros i q Hiq. destruct (Hpres i q Hiq) as [p Hp].
    eapply presente_por_keys; [symmetry; exact Hk | exact Hp]. }
  destruct (parcelas_sem_KeyError ps (Dict.items pv) Hps) as [[xs ->] | ->]; simpl; eauto.
Qed.

Lemma parcelas_overflow ps itens :
  (forall i q, In (i, q) itens -> exists p, Dict.get ps i = Some p) ->
  (exists i q, In (i, q) itens /\ float_of_int q = Levanta OverflowError) ->
  Venda.parcelas ps itens = Levanta OverflowError.
Proof.
  induction itens as [|[i0 q0] itens IH]; intros H [i [q [Hin Hq]]]; simpl.
  - contradiction.
  - destruct (H i0 q0 (or_introl eq_refl)) as [p0 Hget0].
    unfold Dict.getitem, mul_float_int. rewrite Hget0. simpl.
    destruct (float_of_int q0) as [y|e] eqn:Hconv; simpl.
    + rewrite IH; [reflexivity | intros i' q' Hiq; apply (H i' q'); now right |].
      destruct Hin as [[= <- <-] | Hin]; [congruence | eauto].
    + now rewrite (float_of_int_excecao _ _ Hconv).
Qed.

(** X10. When every line item validates, every low-stock alert the sale
    triggers shows a quantity of at most 4300 digits, and some quantity asked
    for is too large for a float, [registrar_venda] raises [OverflowError]
    after its second loop: every requested product has lost the quantity
    asked for and the sale counter has advanced, but no sale is recorded. *)
Theorem registrar_venda_overflow :
  forall (py : Plataforma) (s : Estoque.t) (produtos_vendidos : Dict.t Z)
         (agora : datetime),
    Dict.wf produtos_vendidos ->
    (forall i q, In (i, q) (Dict.items produtos_vendidos) ->
       exists p, Dict.get (Estoque.produtos s) i = Some p /\ q <= Produto.quantidade p) ->
    (forall i q, In (i, q) (Dict.items produtos_vendidos) ->
       alerta_imprimivel (Estoque.produtos s) (i, q)) ->
    (exists i q, In (i, q) (Dict.items produtos_vendidos)
                 /\ float_of_int q = Levanta OverflowError) ->
    exists s' saida,
      Estoque.registrar_venda py s produtos_vendidos agora
      = (s', saida, Levanta OverflowError)
      /\ Estoque.vendas s' = Estoque.vendas s
      /\ Estoque.ultimo_id_venda s' = Estoque.ultimo_id_venda s + 1
      /\ Estoque.ultimo_id_produto s' = Estoque.ultimo_id_produto s
      /\ (forall i q, In (i, q) (Dict.items produtos_vendidos) ->
            exists p, Dict.get (Estoque.produtos s) i = Some p
                      /\ Dict.get (Estoque.produtos s') i
                         = Some (Produto.com_quantidade p (Produto.quantidade p - q)))
      /\ (forall i, ~ In i (Dict.keys produtos_vendidos) ->
            Dict.get (Estoque.produtos s') i = Dict.get (Estoque.produtos s) i).
Proof.
  intros py s pv agora Hwf Hok Hal Hbig.
  destruct (baixar_ok (Dict.items pv) (Estoque.produtos s) Hwf) as
    [ps [saida [Hb [Hkeys [Hin Hout]]]]].
  { intros i q Hiq. destruct (Hok i q Hiq) as [p [Hp _]]. eauto. }
  { exact Hal. }
  assert (Hpar : Venda.parcelas ps (Dict.items pv) = Levanta OverflowError).
  { apply parcelas_overflow; [| assumption].
    intros i q Hiq. destruct (Hin i q Hiq) as [p [_ Hp]]. eauto. }
  eexists; eexists. split.
  - unfold Estoque.registrar_venda, Venda.calcular_valor_total.
    rewrite (verificar_valido _ _ Hok), Hb. simpl. rewrite Hpar. reflexivity.
  - simpl. repeat (split; [first [reflexivity | assumption] |]). assumption.
Qed.

Lemma registrar_venda_overflow_exemplo :
  Dict.wf [(1, 2 ^ 1024)]
  /\ (forall i q, In (i, q) (Dict.items [(1, 2 ^ 1024)]) ->
        exists p, Dict.get (Estoque.produtos loja_enorme) i = Some p
                  /\ q <= Produto.quantidade p)
  /\ (forall i q, In (i, q) (Dict.items [(1, 2 ^ 1024)]) ->
        alerta_imprimivel (Estoque.produtos loja_enorme) (i, q))
  /\ (exists i q, In (i, q) (Dict.items [(1, 2 ^ 1024)])
                  /\ float_of_int q = Levanta OverflowError)
  /\ exists s' saida,
       Estoque.registrar_venda cpython312 loja_enorme [(1, 2 ^ 1024)] 0
       = (s', saida, Levanta OverflowError)
       /\ Estoque.vendas s' = Estoque.vendas loja_enorme
       /\ Estoque.ultimo_id_venda s' = Estoque.ultimo_id_venda loja_enorme + 1
       /\ Estoque.ultimo_id_produto s' = Estoque.ultimo_id_produto loja_enorme
       /\ (forall i q, In (i, q) (Dict.items [(1, 2 ^ 1024)]) ->
             exists p, Dict.get (Estoque.produtos loja_enorme) i = Some p
                       /\ Dict.get (Estoque.produtos s') i
                          = Some (Produto.com_quantidade p (Produto.quantidade p - q)))
       /\ (forall i, ~ In i (Dict.keys [(1, 2 ^ 1024)]) ->
             Dict.get (Estoque.produtos s') i = Dict.get (Estoque.produtos loja_enorme) i).
Proof.
  assert (Hwf : Dict.wf [(1, 2 ^ 1024)]).
  { unfold Dict.wf. simpl. constructor; [simpl; tauto | constructor]. }
  assert (Hok : forall i q, In (i, q) (Dict.items [(1, 2 ^ 1024)]) ->
                  exists p, Dict.get (Estoque.produtos loja_enorme) i = Some p
                            /\ q <= Produto.quantidade p).
  { intros i q [[= <- <-] | []]. eexists. split; [vm_compute; reflexivity | simpl; lia]. }
  assert (Hal : forall i q, In (i, q) (Dict.items [(1, 2 ^ 1024)]) ->
                  alerta_imprimivel (Estoque.produtos loja_enorme) (i, q)).
  { intros i q [[= <- <-] | []] p Hp _. vm_compute in Hp. injection Hp as <-.
    vm_compute. reflexivity. }
  assert (Hbig : exists i q, In (i, q) (Dict.items [(1, 2 ^ 1024)])
                             /\ float_of_int q = Levanta OverflowError).
  { exists 1, (2 ^ 1024). split; [left; reflexivity | vm_compute; reflexivity]. }
  split; [exact Hwf |]. split; [exact Hok |]. split; [exact Hal |]. split; [exact Hbig |].
  exact (registrar_venda_overflow cpython312 loja_enorme [(1, 2 ^ 1024)] 0
           Hwf Hok Hal Hbig).
Defined.

Lemma vendidos_ext a b itens :
  (forall i q, In (i, q) itens -> Dict.get a i = Dict.get b i) ->
  vendidos a itens = vendidos b itens.
Proof.
  unfold vendidos. induction itens as [|[i q] itens IH]; intros H; simpl; [reflexivity |].
  rewrite (H i q (or_introl eq_refl)), IH;
    [reflexivity | intros i' q' Hiq; apply (H i' q'); now right].
Qed.

(** When the second loop ends normally it has printed one alert for each
    product it left low, in the order of the line items. *)
Lemma baixar_saida itens : forall ps,
  NoDup (map fst itens) ->
  (forall i q, In (i, q) itens -> exists p, Dict.get ps i = Some p) ->
  snd (Estoque.baixar ps itens) = None ->
  snd (fst (Estoque.baixar ps itens))
  = map (fun p => "ALERTA: Estoque baixo para " ++ Produto.nome p ++ " (Quantidade: "
                  ++ decimal (Produto.quantidade p) ++ ")")
      (filter Produto.verificar_estoque_baixo (vendidos ps itens)).
Proof.
  remember (fun p => "ALERTA: Estoque baixo para " ++ Produto.nome p ++ " (Quantidade: "
                     ++ decimal (Produto.quantidade p) ++ ")") as texto eqn:Htexto.
  induction itens as [|[i0 q0] itens IH]; intros ps Hnd H; [reflexivity |].
  inversion Hnd as [|? ? Hnotin Hnd']; subst.
  destruct (H i0 q0 (or_introl eq_refl)) as [p0 Hget0].
  unfold vendidos. cbn [Estoque.baixar map flat_map app fst snd]. rewrite Hget0.
  cbn [app]. fold (vendidos ps itens).
  change (Produto.com_quantidade p0 (Produto.quantidade p0 - q0))
    with (Produto.atualizar_quantidade p0 (- q0)).
  set (p0' := Produto.atualizar_quantidade p0 (- q0)). cbn [filter].
  assert (Hne : forall i q, In (i, q) itens -> i0 <> i).
  { intros i q Hin ->. apply Hnotin. change i with (fst (i, q)). now apply in_map. }
  specialize (IH (Dict.set ps i0 p0') Hnd').
  rewrite (vendidos_ext (Dict.set ps i0 p0') ps) in IH
    by (intros i q Hiq; apply get_set_neq; eauto).
  assert (Hrest : forall i q, In (i, q) itens ->
                    exists p, Dict.get (Dict.set ps i0 p0') i = Some p).
  { intros i q Hiq. destruct (H i q (or_intror Hiq)) as [p Hp].
    eapply get_Some_set; eauto. }
  specialize (IH Hrest).
  destruct (Produto.verificar_estoque_baixo p0') eqn:Hlow; [| exact IH].
  destruct (Estoque.msg_alerta p0') as [alerta|e] eqn:Hmsg; [| discriminate].
  apply msg_alerta_Retorna in Hmsg. subst alerta.
  destruct (Estoque.baixar (Dict.set ps i0 p0') itens) as [[ps' saida] e].
  cbn [fst snd map] in *. intros He. now rewrite (IH He).
Qed.

(** X11. When every line item validates and every low-stock alert the sale
    triggers shows a quantity of at most 4300 digits, the lines
    [registrar_venda] prints are the low-stock alerts, one for each requested
    product that the sale leaves strictly below its threshold, in the order
    of the line items and with the quantity left; whether the call then
    returns the sale or raises [OverflowError] makes no difference. *)
Theorem registrar_venda_alertas :
  forall (py : Plataforma) (s : Estoque.t) (produtos_vendidos : Dict.t Z)
         (agora : datetime),
    Dict.wf produtos_vendidos ->
    (forall i q, In (i, q) (Dict.items produtos_vendidos) ->
       exists p, Dict.get (Estoque.produtos s) i = Some p /\ q <= Produto.quantidade p) ->
    (forall i q, In (i, q) (Dict.items produtos_vendidos) ->
       alerta_imprimivel (Estoque.produtos s) (i, q)) ->
    snd (fst (Estoque.registrar_venda py s produtos_vendidos agora))
    = map (fun p => "ALERTA: Estoque baixo para " ++ Produto.nome p ++ " (Quantidade: "
                    ++ decimal (Produto.quantidade p) ++ ")")
        (filter (fun p => Produto.quantidade p <? Produto.limite_minimo p)
           (vendidos (Estoque.produtos s) (Dict.items produtos_vendidos))).
Proof.
  intros py s pv agora Hwf Hok Hal.
  assert (Hpres : forall i q, In (i, q) (Dict.items pv) ->
                    exists p, Dict.get (Estoque.produtos s) i = Some p).
  { intros i q Hiq. destruct (Hok i q Hiq) as [p [Hp _]]. eauto. }
  pose proof (baixar_saida (Dict.items pv) (Estoque.produtos s) Hwf Hpres) as Hs.
  destruct (baixar_ok (Dict.items pv) (Estoque.produtos s) Hwf Hpres Hal) as
    [ps [saida [Hb _]]].
  unfold Estoque.registrar_venda. rewrite (verificar_valido _ _ Hok).
  rewrite Hb in *. simpl in Hs. specialize (Hs eq_refl).
  destruct (Venda.calcular_valor_total _ _ _); exact Hs.
Qed.

Lemma registrar_venda_alertas_exemplo :
  Dict.wf [(1, 3); (2, 1)]
  /\ (forall i q, In (i, q) (Dict.items [(1, 3); (2, 1)]) ->
        exists p, Dict.get (Estoque.produtos loja_ab) i = Some p
                  /\ q <= Produto.quantidade p)
  /\ (forall i q, In (i, q) (Dict.items [(1, 3); (2, 1)]) ->
        alerta_imprimivel (Estoque.produtos loja_ab) (i, q))
  /\ snd (fst (Estoque.registrar_venda cpython311 loja_ab [(1, 3); (2, 1)] 0))
     = map (fun p => "ALERTA: Estoque baixo para " ++ Produto.nome p ++ " (Quantidade: "
                     ++ decimal (Produto.quantidade p) ++ ")")
         (filter (fun p => Produto.quantidade p <? Produto.limite_minimo p)
            (vendidos (Estoque.produtos loja_ab) (Dict.items [(1, 3); (2, 1)]))).
Proof.
  assert (Hwf : Dict.wf [(1, 3); (2, 1)]).
  { unfold Dict.wf. simpl. repeat constructor; simpl; intuition discriminate. }
  assert (Hok : forall i q, In (i, q) (Dict.items [(1, 3); (2, 1)]) ->
                  exists p, Dict.get (Estoque.produtos loja_ab) i = Some p
                            /\ q <= Produto.quantidade p).
  { intros i q [[= <- <-] | [[= <- <-] | []]]; eexists;
      (split; [vm_compute; reflexivity | simpl; lia]). }
  assert (Hal : forall i q, In (i, q) (Dict.items [(1, 3); (2, 1)]) ->
                  alerta_imprimivel (Estoque.produtos loja_ab) (i, q)).
  { intros i q [[= <- <-] | [[= <- <-] | []]] p Hp _;
      vm_compute in Hp; injection Hp as <-; vm_compute; reflexivity. }
  split; [exact Hwf |]. split; [exact Hok |]. split; [exact Hal |].
  exact (registrar_venda_alertas cpython311 loja_ab [(1, 3); (2, 1)] 0 Hwf Hok Hal).
Defined.

Lemma estoque_total_set ps i p p' :
  Dict.get ps i = Some p ->
  estoque_total (Dict.set ps i p')
  = estoque_total ps - Produto.quantidade p + Produto.quantidade p'.
Proof.
  unfold estoque_total, Dict.values.
  induction ps as [|[k v] ps IH]; simpl; [discriminate |].
  destruct (k =? i); simpl.
  - intros [= ->]. lia.
  - intros H. rewrite IH by assumption. lia.
Qed.

Lemma baixar_estoque_total itens : forall ps,
  (forall i q, In (i, q) itens -> exists p, Dict.get ps i = Some p) ->
  snd (Estoque.baixar ps itens) = None ->
  estoque_total (fst (fst (Estoque.baixar ps itens)))
  = estoque_total ps - pedido_total itens.
Proof.
  unfold pedido_total.
  induction itens as [|[i0 q0] itens IH]; intros ps H; simpl; [lia |].
  destruct (H i0 q0 (or_introl eq_refl)) as [p0 Hget0]. rewrite Hget0.
  set (p0' := Produto.atualizar_quantidade p0 (- q0)).
  specialize (IH (Dict.set ps i0 p0')).
  assert (Hrest : forall i q, In (i, q) itens ->
                    exists p, Dict.get (Dict.set ps i0 p0') i = Some p).
  { intros i q Hiq. destruct (H i q (or_intror Hiq)) as [p Hp].
    eapply get_Some_set; eauto. }
  specialize (IH Hrest).
  rewrite (estoque_total_set _ _ _ p0' Hget0) in IH.
  assert (Hq : Produto.quantidade p0' = Produto.quantidade p0 - q0) by (simpl; lia).
  destruct (Produto.verificar_estoque_baixo p0').
  - destruct (Estoque.msg_alerta p0') as [alerta|e]; [| discriminate].
    destruct (Estoque.baixar (Dict.set ps i0 p0') itens) as [[ps' saida] e].
    simpl in *. intros He. rewrite (IH He). lia.
  - intros He. rewrite (IH He). lia.
Qed.

(** X12. Units are conserved: when every line item validates and the call
    does not raise [ValueError] (no alert shows an integer too long to
    print), the units in stock after [registrar_venda], all products
    together, are those of before less the units asked for, whether the call
    returns the sale or raises [OverflowError]. *)
Theorem registrar_venda_conserva_unidades :
  forall (py : Plataforma) (s : Estoque.t) (produtos_vendidos : Dict.t Z)
         (agora : datetime),
    (forall i q, In (i, q) (Dict.items produtos_vendidos) ->
       exists p, Dict.get (Estoque.produtos s) i = Some p /\ q <= Produto.quantidade p) ->
    snd (Estoque.registrar_venda py s produtos_vendidos agora) <> Levanta ValueError ->
    estoque_total
      (Estoque.produtos (fst (fst (Estoque.registrar_venda py s produtos_vendidos agora))))
    = estoque_total (Estoque.produtos s) - pedido_total (Dict.items produtos_vendidos).
Proof.
  intros py s pv agora Hok.
  assert (Hpres : forall i q, In (i, q) (Dict.items pv) ->
                    exists p, Dict.get (Estoque.produtos s) i = Some p).
  { intros i q Hiq. destruct (Hok i q Hiq) as [p [Hp _]]. eauto. }
  pose proof (baixar_estoque_total (Dict.items pv) (Estoque.produtos s) Hpres) as Ht.
  pose proof (baixar_excecao (Dict.items pv) (Estoque.produtos s) Hpres) as He.
  unfold Estoque.registrar_venda. rewrite (verificar_valido _ _ Hok).
  destruct (Estoque.baixar _ _) as [[ps saida] e]. simpl in Ht, He.
  destruct He as [-> | ->]; [| simpl; congruence].
  intros _. specialize (Ht eq_refl).
  destruct (Venda.calcular_valor_total _ _ _); exact Ht.
Qed.

Lemma registrar_venda_conserva_unidades_exemplo :
  (forall i q, In (i, q) (Dict.items [(4, 2); (7, 3)]) ->
     exists p, Dict.get (Estoque.produtos Interface.init) i = Some p
               /\ q <= Produto.quantidade p)
  /\ snd (Estoque.registrar_venda cpython311 Interface.init [(4, 2); (7, 3)] 0)
     <> Levanta ValueError
  /\ estoque_total
       (Estoque.produtos
          (fst (fst (Estoque.registrar_venda cpython311 Interface.init [(4, 2); (7, 3)] 0))))
     = estoque_total (Estoque.produtos Interface.init)
       - pedido_total (Dict.items [(4, 2); (7, 3)]).
Proof.
  assert (Hok : forall i q, In (i, q) (Dict.items [(4, 2); (7, 3)]) ->
                  exists p, Dict.get (Estoque.produtos Interface.init) i = Some p
                            /\ q <= Produto.quantidade p).
  { intros i q [[= <- <-] | [[= <- <-] | []]]; eexists;
      (split; [vm_compute; reflexivity | simpl; lia]). }
  assert (Hnv : snd (Estoque.registrar_venda cpython311 Interface.init [(4, 2); (7, 3)] 0)
                <> Levanta ValueError)
    by (vm_compute; discriminate).
  split; [exact Hok |]. split; [exact Hnv |].
  exact (registrar_venda_conserva_unidades cpython311 Interface.init [(4, 2); (7, 3)] 0
           Hok Hnv).
Defined.

Lemma parcelas_KeyError ps antes i q depois :
  (forall i' q', In (i', q') antes ->
     (exists p, Dict.get ps i' = Some p) /\ (exists y, float_of_int q' = Retorna y)) ->
  Dict.get ps i = None ->
  Venda.parcelas ps (antes ++ (i, q) :: depois) = Levanta (KeyError i).
Proof.
  intros H Hget. induction antes as [|[i0 q0] antes IH]; simpl.
  - unfold Dict.getitem. now rewrite Hget.
  - destruct (H i0 q0 (or_introl eq_refl)) as [[p0 Hp0] [y Hy]].
    unfold Dict.getitem, mul_float_int. rewrite Hp0, Hy. simpl.
    rewrite IH; [reflexivity |]. intros i' q' Hiq. apply (H i' q'). now right.
Qed.

(** X13. [Venda.calcular_valor_total] does not tolerate a missing product:
    when the first line item that cannot be priced refers to an identifier
    absent from the product map, it raises [KeyError] with that identifier. *)
Theorem calcular_valor_total_KeyError :
  forall (py : Plataforma) (venda : Venda.t) (ps : Dict.t Produto.t)
         (antes depois : list (Z * Z)) (i q : Z),
    Dict.items (Venda.produtos venda) = (antes ++ (i, q) :: depois)%list ->
    (forall i' q', In (i', q') antes ->
       (exists p, Dict.get ps i' = Some p) /\ (exists y, float_of_int q' = Retorna y)) ->
    Dict.get ps i = None ->
    Venda.calcular_valor_total py venda ps = Levanta (KeyError i).
Proof.
  intros py venda ps antes depois i q Hitens H Hget.
  unfold Venda.calcular_valor_total. rewrite Hitens.
  now rewrite (parcelas_KeyError ps antes i q depois H Hget).
Qed.

Lemma calcular_valor_total_KeyError_exemplo :
  Dict.items (Venda.produtos venda_ab) = ([(1, 3)] ++ (2, 1) :: [])%list
  /\ (forall i' q', In (i', q') [(1, 3)] ->
        (exists p, Dict.get (Estoque.produtos loja_sem_b) i' = Some p)
        /\ (exists y, float_of_int q' = Retorna y))
  /\ Dict.get (Estoque.produtos loja_sem_b) 2 = None
  /\ Venda.calcular_valor_total cpython311 venda_ab (Estoque.produtos loja_sem_b)
     = Levanta (KeyError 2).
Proof.
  assert (H1 : Dict.items (Venda.produtos venda_ab) = ([(1, 3)] ++ (2, 1) :: [])%list)
    by reflexivity.
  assert (H2 : forall i' q', In (i', q') [(1, 3)] ->
                 (exists p, Dict.get (Estoque.produtos loja_sem_b) i' = Some p)
                 /\ (exists y, float_of_int q' = Retorna y)).
  { intros i' q' [[= <- <-] | []]. split; eexists; vm_compute; reflexivity. }
  assert (H3 : Dict.get (Estoque.produtos loja_sem_b) 2 = None) by (vm_compute; reflexivity).
  split; [exact H1 |]. split; [exact H2 |]. split; [exact H3 |].
  exact (calcular_valor_total_KeyError cpython311 venda_ab (Estoque.produtos loja_sem_b)
           [(1, 3)] [] 2 1 H1 H2 H3).
Defined.

(** ** Sorting *)

Section Ordenacao.
Context {A K : Type} (leb : K -> K -> bool) (chave : A -> K).
Hypothesis leb_total : forall a b, leb a b = true \/ leb b a = true.

Let ordem (a b : A) : Prop := leb (chave a) (chave b) = true.

Lemma inserir_por_perm x xs : Permutation (x :: xs) (inserir_por leb chave x xs).
Proof.
  induction xs as [|y xs IH]; simpl; [reflexivity |].
  destruct (leb (chave x) (chave y)); [reflexivity |].
  rewrite perm_swap. now constructor.
Qed.

Lemma sorted_perm xs : Permutation xs (sorted leb chave xs).
Proof.
  induction xs as [|x xs IH]; simpl; [constructor |].
  rewrite <- inserir_por_perm. now constructor.
Qed.

Lemma inserir_por_HdRel a x xs :
  ordem a x -> HdRel ordem a xs -> HdRel ordem a (inserir_por leb chave x xs).
Proof.
  intros Hax Hhd. destruct xs as [|y xs]; simpl; [now constructor |].
  destruct (leb (chave x) (chave y)); constructor; [assumption | now inversion Hhd].
Qed.

Lemma inserir_por_Sorted x xs :
  Sorted ordem xs -> Sorted ordem (inserir_por leb chave x xs).
Proof.
  induction xs as [|y xs IH]; simpl; intros Hs.
  - repeat constructor.
  - destruct (leb (chave x) (chave y)) eqn:E.
    + constructor; [assumption | now constructor].
    + inversion Hs as [|? ? Hs' Hhd]; subst.
      constructor; [now apply IH |].
      apply inserir_por_HdRel; [| assumption].
      unfold ordem. destruct (leb_total (chave x) (chave y)); congruence.
Qed.

Lemma sorted_Sorted xs : Sorted ordem (sorted leb chave xs).
Proof.
  induction xs as [|x xs IH]; simpl; [constructor | now apply inserir_por_Sorted].
Qed.

Lemma sorted_de_ordenada xs : Sorted ordem xs -> sorted leb chave xs = xs.
Proof.
  induction xs as [|x xs IH]; simpl; intros Hs; [reflexivity |].
  inversion Hs as [|? ? Hs' Hhd]; subst. rewrite IH by assumption.
  destruct xs as [|y xs]; simpl; [reflexivity |].
  inversion Hhd as [|? ? Hxy]; subst. unfold ordem in Hxy. now rewrite Hxy.
Qed.
End Ordenacao.

Lemma Z_leb_total (a b : Z) : (a <=? b) = true \/ (b <=? a) = true.
Proof. destruct (Z.le_ge_cases a b); [left | right]; now apply Z.leb_le. Qed.

(** ** The stock report *)

Lemma produto_imprimivel_dec p : produto_imprimivel p \/ ~ produto_imprimivel p.
Proof.
  unfold produto_imprimivel.
  destruct (imprimivel_dec (Produto.id p)), (imprimivel_dec (Produto.quantidade p)); tauto.
Qed.

Lemma Produto_str_imprimivel p :
  produto_imprimivel p -> Produto.str p = Retorna (texto_produto p).
Proof.
  intros [Hid Hq]. unfold Produto.str.
  now rewrite (str_int_imprimivel _ Hid), (str_int_imprimivel _ Hq).
Qed.

Lemma Produto_str_nao_imprimivel p :
  ~ produto_imprimivel p -> Produto.str p = Levanta ValueError.
Proof.
  intros H. unfold Produto.str.
  destruct (imprimivel_dec (Produto.id p)) as [Hid | Hid].
  - rewrite (str_int_imprimivel _ Hid). cbn [bind].
    destruct (imprimivel_dec (Produto.quantidade p)) as [Hq | Hq].
    + exfalso. apply H. now split.
    + now rewrite (str_int_nao_imprimivel _ Hq).
  - now rewrite (str_int_nao_imprimivel _ Hid).
Qed.

Lemma linha_estoque_imprimivel p :
  produto_imprimivel p -> Estoque.linha_estoque p = Retorna (texto_linha_estoque p).
Proof.
  intros H. unfold Estoque.linha_estoque. cbv zeta.
  now rewrite (Produto_str_imprimivel p H).
Qed.

Lemma linha_estoque_nao_imprimivel p :
  ~ produto_imprimivel p -> Estoque.linha_estoque p = Levanta ValueError.
Proof.
  intros H. unfold Estoque.linha_estoque. cbv zeta.
  now rewrite (Produto_str_nao_imprimivel p H).
Qed.

Lemma para_cada_estoque produtos : forall relatorio,
  Forall produto_imprimivel produtos ->
  para_cada produtos
    (fun relatorio produto =>
       linha <- Estoque.linha_estoque produto ;; Retorna (relatorio ++ linha))
    relatorio
  = Retorna (relatorio ++ linhas_estoque produtos).
Proof.
  induction produtos as [|p produtos IH]; intros relatorio H; cbn [para_cada linhas_estoque].
  - now rewrite append_nil_r.
  - inversion H as [|? ? Hp Hrest]; subst.
    rewrite (linha_estoque_imprimivel p Hp). cbn [bind].
    now rewrite (IH _ Hrest), append_assoc.
Qed.

Lemma para_cada_estoque_ValueError produtos : forall relatorio,
  Exists (fun p => ~ produto_imprimivel p) produtos ->
  para_cada produtos
    (fun relatorio produto =>
       linha <- Estoque.linha_estoque produto ;; Retorna (relatorio ++ linha))
    relatorio
  = Levanta ValueError.
Proof.
  induction produtos as [|p produtos IH]; intros relatorio H; cbn [para_cada].
  - inversion H.
  - destruct (produto_imprimivel_dec p) as [Hp | Hp].
    + rewrite (linha_estoque_imprimivel p Hp). cbn [bind].
      apply IH. inversion H; subst; [contradiction | assumption].
    + now rewrite (linha_estoque_nao_imprimivel p Hp).
Qed.

(** X14. The stock report is made of its title, the date line, the number of
    products and an empty line, followed by one line per stored product,
    each product once, in ascending order of name; a line ends with the
    status ESTOQUE BAIXO exactly when the product is below its threshold.
    The report is returned when the identifier and the quantity of every
    stored product have at most 4300 digits; otherwise the call raises
    [ValueError]. *)
Theorem gerar_relatorio_estoque_forma :
  forall (py : Plataforma) (s : Estoque.t) (agora : datetime),
    exists ordenados,
      Permutation (Estoque.listar_produtos s) ordenados
      /\ Sorted por_nome ordenados
      /\ (Forall produto_imprimivel (Estoque.listar_produtos s) ->
          Estoque.gerar_relatorio_estoque py s agora
          = Retorna
              ("===== RELATÓRIO DE ESTOQUE =====" ++ nl
               ++ "Data: " ++ strftime py agora "%d/%m/%Y %H:%M" ++ nl
               ++ "Total de produtos: "
               ++ decimal (Z.of_nat (List.length (Estoque.listar_produtos s)))
               ++ nl ++ nl
               ++ linhas_estoque ordenados))
      /\ (Exists (fun p => ~ produto_imprimivel p) (Estoque.listar_produtos s) ->
          Estoque.gerar_relatorio_estoque py s agora = Levanta ValueError)
      /\ (forall p,
            produto_imprimivel p ->
            Estoque.linha_estoque p
            = Retorna
                ("ID: " ++ decimal (Produto.id p) ++ " | " ++ Produto.nome p
                 ++ " | Tamanho: " ++ Produto.tamanho p ++ " | Cor: " ++ Produto.cor p
                 ++ " | Quantidade: " ++ decimal (Produto.quantidade p)
                 ++ " | Preço: R$" ++ fmt2f (Produto.preco p)
                 ++ " | Status: "
                 ++ (if Produto.quantidade p <? Produto.limite_minimo p
                     then "ESTOQUE BAIXO" else "OK")
                 ++ nl)).
Proof.
  intros py s agora.
  exists (sorted String.leb Produto.nome (Estoque.listar_produtos s)).
  pose proof (sorted_perm String.leb Produto.nome (Estoque.listar_produtos s)) as Hperm.
  split; [exact Hperm |].
  split; [apply (sorted_Sorted String.leb Produto.nome String.leb_total) |].
  split; [| split].
  - intros Himp.
    unfold Estoque.gerar_relatorio_estoque. cbv zeta.
    fold (Estoque.listar_produtos s).
    rewrite para_cada_estoque.
    + unfold str_len, Estoque.listar_produtos, Dict.values.
      rewrite length_map, !append_assoc. reflexivity.
    + eapply Permutation_Forall; eauto.
  - intros Hex.
    unfold Estoque.gerar_relatorio_estoque. cbv zeta.
    fold (Estoque.listar_produtos s).
    apply para_cada_estoque_ValueError.
    eapply Permutation_Exists; eauto.
  - intros p Hp. rewrite (linha_estoque_imprimivel p Hp).
    unfold texto_linha_estoque, texto_produto. rewrite !append_assoc. reflexivity.
Qed.

(** The stock report of the interface's ledger, as printed. *)
Example gerar_relatorio_estoque_exemplo :
  Estoque.gerar_relatorio_estoque cpython311 Interface.init 63929787296789012
  = Retorna "===== RELATÓRIO DE ESTOQUE =====
Data: 09/11/2026 02:14
Total de produtos: 8

ID: 8 | Bermuda Tactel | Tamanho: M | Cor: Preta | Quantidade: 20 | Preço: R$59.90 | Status: OK
ID: 4 | Calça Jeans | Tamanho: 40 | Cor: Azul | Quantidade: 8 | Preço: R$129.90 | Status: OK
ID: 5 | Calça Jeans | Tamanho: 42 | Cor: Azul | Quantidade: 6 | Preço: R$129.90 | Status: OK
ID: 1 | Camiseta Básica | Tamanho: M | Cor: Preta | Quantidade: 15 | Preço: R$49.90 | Status: OK
ID: 2 | Camiseta Básica | Tamanho: G | Cor: Preta | Quantidade: 10 | Preço: R$49.90 | Status: OK
ID: 3 | Camiseta Básica | Tamanho: M | Cor: Branca | Quantidade: 12 | Preço: R$49.90 | Status: OK
ID: 6 | Vestido Floral | Tamanho: P | Cor: Colorido | Quantidade: 5 | Preço: R$89.90 | Status: OK
ID: 7 | Vestido Floral | Tamanho: M | Cor: Colorido | Quantidade: 3 | Preço: R$89.90 | Status: ESTOQUE BAIXO
".
Proof. vm_compute. reflexivity. Qed.

(** A product whose quantity has 5001 digits stops the stock report. *)
Example gerar_relatorio_estoque_ValueError :
  Estoque.gerar_relatorio_estoque cpython311
    (fst (Estoque.adicionar_produto Estoque.init "A" "M" "Preta" (10 ^ 5000) 49.9 5)) 0
  = Levanta ValueError.
Proof. vm_compute. reflexivity. Qed.

(** ** More on the sales report *)

(** X15. When the sales of the period show integers of at most 4300 digits,
    the sales report is produced, and is its four header lines (title,
    period, number of sales of the period, sum of their totals) and an empty
    line, followed by the block of each sale whose timestamp lies within the
    bounds, both ends included, in the order the sales were recorded; a sale
    outside the bounds leaves no trace. *)
Theorem gerar_relatorio_vendas_forma_exata :
  forall (py : Plataforma) (s : Estoque.t) (data_inicio data_fim : option datetime),
    (forall v, In v (Estoque.vendas s) ->
       Estoque.valor_ou data_inicio datetime_min <= Venda.data v
         <= Estoque.valor_ou data_fim datetime_max ->
       venda_imprimivel (Estoque.produtos s) v) ->
    Estoque.gerar_relatorio_vendas py s data_inicio data_fim
    = Retorna
        (cabecalho_vendas py
           (Estoque.valor_ou data_inicio datetime_min)
           (Estoque.valor_ou data_fim datetime_max)
           (filter (fun v =>
                      (Estoque.valor_ou data_inicio datetime_min <=? Venda.data v)
                      && (Venda.data v <=? Estoque.valor_ou data_fim datetime_max))
              (Estoque.vendas s))
         ++ blocos py (Estoque.produtos s)
              (filter (fun v =>
                         (Estoque.valor_ou data_inicio datetime_min <=? Venda.data v)
                         && (Venda.data v <=? Estoque.valor_ou data_fim datetime_max))
                 (Estoque.vendas s))).
Proof.
  intros py s data_inicio data_fim Himp.
  apply vendas_do_periodo_imprimiveis in Himp.
  unfold Estoque.gerar_relatorio_vendas. cbv zeta.
  rewrite (para_cada_vendas py _ _ _ Himp). unfold cabecalho_vendas, Estoque.soma_totais.
  rewrite !append_assoc. reflexivity.
Qed.

Lemma gerar_relatorio_vendas_forma_exata_exemplo :
  (forall v, In v (Estoque.vendas loja_sem_b) ->
     Estoque.valor_ou None datetime_min <= Venda.data v
       <= Estoque.valor_ou None datetime_max ->
     venda_imprimivel (Estoque.produtos loja_sem_b) v)
  /\ Estoque.gerar_relatorio_vendas cpython311 loja_sem_b None None
     = Retorna
         (cabecalho_vendas cpython311
            (Estoque.valor_ou None datetime_min)
            (Estoque.valor_ou None datetime_max)
            (filter (fun v =>
                       (Estoque.valor_ou None datetime_min <=? Venda.data v)
                       && (Venda.data v <=? Estoque.valor_ou None datetime_max))
               (Estoque.vendas loja_sem_b))
          ++ blocos cpython311 (Estoque.produtos loja_sem_b)
               (filter (fun v =>
                          (Estoque.valor_ou None datetime_min <=? Venda.data v)
                          && (Venda.data v <=? Estoque.valor_ou None datetime_max))
                  (Estoque.vendas loja_sem_b))).
Proof.
  assert (H0 : forall v, In v (Estoque.vendas loja_sem_b) ->
                 Estoque.valor_ou None datetime_min <= Venda.data v
                   <= Estoque.valor_ou None datetime_max ->
                 venda_imprimivel (Estoque.produtos loja_sem_b) v).
  { intros v Hv _. vm_compute in Hv. destruct Hv as [<- | []].
    split; [vm_compute; reflexivity |].
    apply Forall_forall. intros item Hitem. simpl in Hitem.
    destruct Hitem as [<- | [<- | []]];
      (split; [vm_compute; reflexivity | intros _; vm_compute; reflexivity]). }
  split; [exact H0 |].
  exact (gerar_relatorio_vendas_forma_exata cpython311 loja_sem_b None None H0).
Defined.

Lemma filter_nada {A : Type} (f : A -> bool) (l : list A) :
  (forall x, In x l -> f x = false) -> filter f l = [].
Proof.
  induction l as [|x l IH]; simpl; intros H; [reflexivity |].
  rewrite (H x (or_introl eq_refl)). apply IH. intros y Hy. apply H. now right.
Qed.

(** X16. When no sale lies within the bounds, the sales report is the header
    alone, with [Total de vendas: 0] and [Valor total: R$0.00]. *)
Theorem gerar_relatorio_vendas_periodo_vazio :
  forall (py : Plataforma) (s : Estoque.t) (data_inicio data_fim : option datetime),
    (forall v, In v (Estoque.vendas s) ->
       Venda.data v < Estoque.valor_ou data_inicio datetime_min
       \/ Estoque.valor_ou data_fim datetime_max < Venda.data v) ->
    Estoque.gerar_relatorio_vendas py s data_inicio data_fim
    = Retorna
        ("===== RELATÓRIO DE VENDAS =====" ++ nl
         ++ "Período: "
         ++ (if Estoque.valor_ou data_inicio datetime_min =? datetime_min then "Início"
             else strftime py (Estoque.valor_ou data_inicio datetime_min) "%d/%m/%Y")
         ++ " a "
         ++ (if Estoque.valor_ou data_fim datetime_max =? datetime_max then "Hoje"
             else strftime py (Estoque.valor_ou data_fim datetime_max) "%d/%m/%Y")
         ++ nl
         ++ "Total de vendas: 0" ++ nl
         ++ "Valor total: R$0.00" ++ nl ++ nl).
Proof.
  intros py s data_inicio data_fim H.
  unfold Estoque.gerar_relatorio_vendas. cbv zeta.
  assert (Hvazio : filter (Estoque.no_periodo
                             (Estoque.valor_ou data_inicio datetime_min)
                             (Estoque.valor_ou data_fim datetime_max))
                     (Estoque.vendas s) = []).
  { apply filter_nada. intros v Hv. unfold Estoque.no_periodo.
    destruct (H v Hv) as [Hlt | Hlt]; apply Z.leb_gt in Hlt; rewrite Hlt;
      [reflexivity | apply andb_false_r]. }
  rewrite Hvazio. cbn [para_cada]. f_equal. rewrite !append_assoc.
  change (str_len (@nil Venda.t)) with "0".
  change (fmt2f (Estoque.soma_totais py [])) with "0.00".
  reflexivity.
Qed.

Lemma gerar_relatorio_vendas_periodo_vazio_exemplo :
  (forall v, In v (Estoque.vendas loja_sem_b) ->
     Venda.data v < Estoque.valor_ou (Some 10) datetime_min
     \/ Estoque.valor_ou (Some 20) datetime_max < Venda.data v)
  /\ Estoque.gerar_relatorio_vendas cpython311 loja_sem_b (Some 10) (Some 20)
     = Retorna
         ("===== RELATÓRIO DE VENDAS =====" ++ nl
          ++ "Período: "
          ++ (if Estoque.valor_ou (Some 10) datetime_min =? datetime_min then "Início"
              else strftime cpython311 (Estoque.valor_ou (Some 10) datetime_min)
                     "%d/%m/%Y")
          ++ " a "
          ++ (if Estoque.valor_ou (Some 20) datetime_max =? datetime_max then "Hoje"
              else strftime cpython311 (Estoque.valor_ou (Some 20) datetime_max)
                     "%d/%m/%Y")
          ++ nl
          ++ "Total de vendas: 0" ++ nl
          ++ "Valor total: R$0.00" ++ nl ++ nl).
Proof.
  assert (H : forall v, In v (Estoque.vendas loja_sem_b) ->
                Venda.data v < Estoque.valor_ou (Some 10) datetime_min
                \/ Estoque.valor_ou (Some 20) datetime_max < Venda.data v).
  { intros v Hv. right. vm_compute in Hv. destruct Hv as [<- | []]. reflexivity. }
  split; [exact H |].
  exact (gerar_relatorio_vendas_periodo_vazio cpython311 loja_sem_b (Some 10) (Some 20) H).
Defined.

(** ** The product listing of the interface *)

Lemma StronglySorted_lt_Sorted_leb {A : Type} (f : A -> Z) (l : list A) :
  StronglySorted Z.lt (map f l) -> Sorted (fun a b => (f a <=? f b) = true) l.
Proof.
  induction l as [|a l IH]; simpl; intros H; [constructor |].
  apply StronglySorted_inv in H. destruct H as [Hs Hall].
  constructor; [now apply IH |].
  destruct l as [|b l]; constructor. inversion Hall; subst. apply Z.leb_le. lia.
Qed.

Lemma ids_dos_valores (ps : Dict.t Produto.t) :
  Forall (fun kp => Produto.id (snd kp) = fst kp) ps ->
  map Produto.id (Dict.values ps) = Dict.keys ps.
Proof.
  unfold Dict.values, Dict.keys. induction 1 as [|[k p] ps Hid _ IH]; simpl.
  - reflexivity.
  - simpl in Hid. now rewrite Hid, IH.
Qed.

(** X17. In every reachable ledger the interface lists the products in the
    order the ledger holds them: sorting by identifier changes nothing,
    because products are stored in ascending order of identifier. So what
    [listar_produtos] prints is the notice of an empty ledger or, under the
    title, the lines of the products in the ledger's order, up to the first
    one that cannot be printed. *)
Theorem listar_produtos_na_ordem_do_estoque :
  forall (py : Plataforma) (s : Estoque.t),
    acessivel py s ->
    sorted Z.leb Produto.id (Estoque.listar_produtos s) = Estoque.listar_produtos s
    /\ Interface.listar_produtos s
       = match Estoque.listar_produtos s with
         | [] => ([nl ++ "===== PRODUTOS EM ESTOQUE ====="; "Nenhum produto cadastrado."],
                  None)
         | _ => Interface.imprimir_produtos (Estoque.listar_produtos s)
         end.
Proof.
  intros py s H. apply (acessivel_ids_de_produto py) in H.
  destruct H as [Hs [_ [Hid _]]].
  assert (E : sorted Z.leb Produto.id (Estoque.listar_produtos s)
              = Estoque.listar_produtos s).
  { apply sorted_de_ordenada. apply StronglySorted_lt_Sorted_leb.
    unfold Estoque.listar_produtos. now rewrite ids_dos_valores. }
  split; [exact E |]. unfold Interface.listar_produtos. cbv zeta. now rewrite E.
Qed.

Lemma listar_produtos_na_ordem_do_estoque_exemplo :
  acessivel cpython311 loja_teste_vendida
  /\ sorted Z.leb Produto.id (Estoque.listar_produtos loja_teste_vendida)
     = Estoque.listar_produtos loja_teste_vendida
  /\ Interface.listar_produtos loja_teste_vendida
     = match Estoque.listar_produtos loja_teste_vendida with
       | [] => ([nl ++ "===== PRODUTOS EM ESTOQUE ====="; "Nenhum produto cadastrado."],
                None)
       | _ => Interface.imprimir_produtos (Estoque.listar_produtos loja_teste_vendida)
       end.
Proof.
  split; [exact acessivel_loja_teste_vendida |].
  exact (listar_produtos_na_ordem_do_estoque cpython311 loja_teste_vendida
           acessivel_loja_teste_vendida).
Defined.

(** ** Operations one after the other *)

(** X18. A sale that [registrar_venda] returned, at a clock reading a
    [datetime] can hold, is the last block of the sales report without bounds
    of the ledger it left: its header line, then the lines of its items. The
    sales of that ledger are taken to show integers of at most 4300 digits. *)
Theorem venda_no_fim_do_relatorio :
  forall (py : Plataforma) (s : Estoque.t) (produtos_vendidos : Dict.t Z)
         (agora : datetime) (s1 : Estoque.t) (saida : list string) (venda : Venda.t),
    Estoque.registrar_venda py s produtos_vendidos agora
    = (s1, saida, Retorna (Some venda)) ->
    datetime_min <= agora <= datetime_max ->
    Forall (venda_imprimivel (Estoque.produtos s1)) (Estoque.vendas s1) ->
    exists antes,
      Estoque.gerar_relatorio_vendas py s1 None None
      = Retorna (antes
                 ++ "Venda #" ++ decimal (Venda.id venda) ++ " | Data: "
                 ++ strftime py (Venda.data venda) "%d/%m/%Y %H:%M"
                 ++ " | Valor: R$" ++ fmt2f (Venda.valor_total venda) ++ nl
                 ++ "Produtos vendidos:" ++ nl
                 ++ linhas (Estoque.produtos s1) (Dict.items produtos_vendidos)
                 ++ nl).
Proof.
  intros py s pv agora s1 saida venda H Hagora Himp.
  apply registrar_venda_Some in H.
  destruct H as [ps [xs [_ [_ [_ [Hvenda ->]]]]]].
  destruct (gerar_relatorio_vendas_forma py
              (Estoque.mk ps (Estoque.vendas s ++ [venda])%list
                 (Estoque.ultimo_id_produto s) (Estoque.ultimo_id_venda s + 1))
              None None) as [cab ->].
  { apply Forall_forall. intros v Hv. apply filter_In in Hv.
    rewrite Forall_forall in Himp. apply Himp. tauto. }
  assert (Hper : Estoque.no_periodo datetime_min datetime_max venda = true).
  { unfold Estoque.no_periodo. subst venda. cbn [Venda.data].
    apply andb_true_iff. split; apply Z.leb_le; lia. }
  assert (Hpv : Venda.produtos venda = pv) by (subst venda; reflexivity).
  cbn [Estoque.produtos Estoque.vendas Estoque.valor_ou].
  rewrite filter_app, blocos_app. cbn [filter]. rewrite Hper. cbn [blocos].
  rewrite append_nil_r. unfold bloco, texto_venda. rewrite Hpv.
  exists (cab ++ blocos py ps
                   (filter (Estoque.no_periodo datetime_min datetime_max)
                      (Estoque.vendas s))).
  rewrite !append_assoc. reflexivity.
Qed.

Lemma venda_no_fim_do_relatorio_exemplo :
  Estoque.registrar_venda cpython311 loja_a10 [(1, 3)] 0
  = (loja_a10_vendida, [], Retorna (Some venda_a10))
  /\ datetime_min <= 0 <= datetime_max
  /\ Forall (venda_imprimivel (Estoque.produtos loja_a10_vendida))
       (Estoque.vendas loja_a10_vendida)
  /\ exists antes,
       Estoque.gerar_relatorio_vendas cpython311 loja_a10_vendida None None
       = Retorna (antes
                  ++ "Venda #" ++ decimal (Venda.id venda_a10) ++ " | Data: "
                  ++ strftime cpython311 (Venda.data venda_a10) "%d/%m/%Y %H:%M"
                  ++ " | Valor: R$" ++ fmt2f (Venda.valor_total venda_a10) ++ nl
                  ++ "Produtos vendidos:" ++ nl
                  ++ linhas (Estoque.produtos loja_a10_vendida) (Dict.items [(1, 3)])
                  ++ nl).
Proof.
  assert (H : Estoque.registrar_venda cpython311 loja_a10 [(1, 3)] 0
              = (loja_a10_vendida, [], Retorna (Some venda_a10)))
    by (vm_compute; reflexivity).
  assert (Hd : datetime_min <= 0 <= datetime_max)
    by (unfold datetime_min, datetime_max; lia).
  assert (Himp : Forall (venda_imprimivel (Estoque.produtos loja_a10_vendida))
                   (Estoque.vendas loja_a10_vendida)).
  { apply Forall_forall. intros v Hv. vm_compute in Hv. destruct Hv as [<- | []].
    split; [vm_compute; reflexivity |].
    apply Forall_forall. intros item Hitem. simpl in Hitem.
    destruct Hitem as [<- | []].
    split; [vm_compute; reflexivity | intros Hget; vm_compute in Hget; discriminate]. }
  split; [exact H |]. split; [exact Hd |]. split; [exact Himp |].
  exact (venda_no_fim_do_relatorio cpython311 loja_a10 [(1, 3)] 0 loja_a10_vendida []
           venda_a10 H Hd Himp).
Defined.

(** X19. A removed product cannot be sold: after [remover_produto] on a
    product map with unique keys, a sale that asks for the removed identifier
    leaves the ledger as the removal left it; it prints one error line and
    returns [None], or it raises [ValueError] with nothing printed, when the
    integer that line would show has more than 4300 digits. *)
Theorem vender_produto_removido :
  forall (py : Plataforma) (s : Estoque.t) (i q : Z) (produtos_vendidos : Dict.t Z)
         (agora : datetime),
    Dict.wf (Estoque.produtos s) ->
    In (i, q) (Dict.items produtos_vendidos) ->
    (exists erro,
       Estoque.registrar_venda py (fst (Estoque.remover_produto s i)) produtos_vendidos
         agora
       = (fst (Estoque.remover_produto s i), [erro], Retorna None))
    \/ Estoque.registrar_venda py (fst (Estoque.remover_produto s i)) produtos_vendidos
         agora
       = (fst (Estoque.remover_produto s i), [], Levanta ValueError).
Proof.
  intros py s i q pv agora Hwf Hin.
  assert (Hget : Dict.get (Estoque.produtos (fst (Estoque.remover_produto s i))) i
                 = None).
  { unfold Estoque.remover_produto, Dict.contains.
    destruct (Dict.get (Estoque.produtos s) i) eqn:E; simpl;
      [now apply get_del_eq | assumption]. }
  destruct (verificar_invalido
              (Estoque.produtos (fst (Estoque.remover_produto s i))) (Dict.items pv))
    as [m [Hv [[linha ->] | ->]]].
  { exists (i, q). split; [assumption |]. unfold item_invalido. simpl. now rewrite Hget. }
  - left. exists linha. unfold Estoque.registrar_venda. now rewrite Hv.
  - right. unfold Estoque.registrar_venda. now rewrite Hv.
Qed.

Lemma vender_produto_removido_exemplo :
  Dict.wf (Estoque.produtos loja_ab)
  /\ In (2, 1) (Dict.items [(1, 1); (2, 1)])
  /\ ((exists erro,
         Estoque.registrar_venda cpython311 (fst (Estoque.remover_produto loja_ab 2))
           [(1, 1); (2, 1)] 0
         = (fst (Estoque.remover_produto loja_ab 2), [erro], Retorna None))
      \/ Estoque.registrar_venda cpython311 (fst (Estoque.remover_produto loja_ab 2))
           [(1, 1); (2, 1)] 0
         = (fst (Estoque.remover_produto loja_ab 2), [], Levanta ValueError)).
Proof.
  assert (Hwf : Dict.wf (Estoque.produtos loja_ab)).
  { unfold Dict.wf. simpl. repeat constructor; simpl; intuition discriminate. }
  assert (Hin : In (2, 1) (Dict.items [(1, 1); (2, 1)])) by (right; left; reflexivity).
  split; [exact Hwf |]. split; [exact Hin |].
  exact (vender_produto_removido cpython311 loja_ab 2 1 [(1, 1); (2, 1)] 0 Hwf Hin).
Defined.

(** The sale of a removed product, as it runs: the line printed. *)
Example vender_produto_removido_caso :
  Estoque.registrar_venda cpython311 (fst (Estoque.remover_produto loja_ab 2))
    [(1, 1); (2, 1)] 0
  = (fst (Estoque.remover_produto loja_ab 2),
     ["Erro: Produto com ID 2 não existe."], Retorna None).
Proof. vm_compute. reflexivity. Qed.

Lemma In_vendidos ps itens p' :
  In p' (vendidos ps itens) ->
  exists i q p, In (i, q) itens /\ Dict.get ps i = Some p
                /\ p' = Produto.com_quantidade p (Produto.quantidade p - q).
Proof.
  unfold vendidos. rewrite in_flat_map. intros [[i q] [Hin Hp]]. simpl in Hp.
  destruct (Dict.get ps i) as [p|] eqn:Hget; [| contradiction].
  destruct Hp as [<- | []]. eauto 7.
Qed.

(** X20. The alerts agree with the low-stock list: when every line item
    validates and every low-stock alert the sale triggers shows a quantity
    of at most 4300 digits, each requested product that the sale leaves
    strictly below its threshold, which are the products alerted, is in
    [listar_produtos_estoque_baixo] of the ledger the call leaves. *)
Theorem alertados_no_estoque_baixo :
  forall (py : Plataforma) (s : Estoque.t) (produtos_vendidos : Dict.t Z)
         (agora : datetime) (p' : Produto.t),
    Dict.wf produtos_vendidos ->
    (forall i q, In (i, q) (Dict.items produtos_vendidos) ->
       exists p, Dict.get (Estoque.produtos s) i = Some p /\ q <= Produto.quantidade p) ->
    (forall i q, In (i, q) (Dict.items produtos_vendidos) ->
       alerta_imprimivel (Estoque.produtos s) (i, q)) ->
    In p' (vendidos (Estoque.produtos s) (Dict.items produtos_vendidos)) ->
    Produto.quantidade p' < Produto.limite_minimo p' ->
    In p' (Estoque.listar_produtos_estoque_baixo
             (fst (fst (Estoque.registrar_venda py s produtos_vendidos agora)))).
Proof.
  intros py s pv agora p' Hwf Hok Hal Hin Hlow.
  destruct (baixar_ok (Dict.items pv) (Estoque.produtos s) Hwf) as
    [ps [saida [Hb [_ [Hdec _]]]]].
  { intros i q Hiq. destruct (Hok i q Hiq) as [p [Hp _]]. eauto. }
  { exact Hal. }
  assert (Hps : Estoque.produtos (fst (fst (Estoque.registrar_venda py s pv agora)))
                = ps).
  { unfold Estoque.registrar_venda. rewrite (verificar_valido _ _ Hok), Hb.
    destruct (Venda.calcular_valor_total _ _ _); reflexivity. }
  unfold Estoque.listar_produtos_estoque_baixo. rewrite Hps.
  apply filter_In. split.
  - apply In_vendidos in Hin. destruct Hin as [i [q [p [Hiq [Hp ->]]]]].
    destruct (Hdec i q Hiq) as [p0 [Hp0 Hp0']].
    assert (p0 = p) as -> by congruence. eapply get_values; eauto.
  - unfold Produto.verificar_estoque_baixo. now apply Z.ltb_lt.
Qed.

Lemma alertados_no_estoque_baixo_exemplo :
  Dict.wf [(1, 3); (2, 1)]
  /\ (forall i q, In (i, q) (Dict.items [(1, 3); (2, 1)]) ->
        exists p, Dict.get (Estoque.produtos loja_ab) i = Some p
                  /\ q <= Produto.quantidade p)
  /\ (forall i q, In (i, q) (Dict.items [(1, 3); (2, 1)]) ->
        alerta_imprimivel (Estoque.produtos loja_ab) (i, q))
  /\ In (Produto.mk 1 "A" "M" "Preta" 2 49.9%float 5)
       (vendidos (Estoque.produtos loja_ab) (Dict.items [(1, 3); (2, 1)]))
  /\ Produto.quantidade (Produto.mk 1 "A" "M" "Preta" 2 49.9%float 5)
     < Produto.limite_minimo (Produto.mk 1 "A" "M" "Preta" 2 49.9%float 5)
  /\ In (Produto.mk 1 "A" "M" "Preta" 2 49.9%float 5)
       (Estoque.listar_produtos_estoque_baixo
          (fst (fst (Estoque.registrar_venda cpython311 loja_ab [(1, 3); (2, 1)] 0)))).
Proof.
  assert (Hwf : Dict.wf [(1, 3); (2, 1)]).
  { unfold Dict.wf. simpl. repeat constructor; simpl; intuition discriminate. }
  assert (Hok : forall i q, In (i, q) (Dict.items [(1, 3); (2, 1)]) ->
                  exists p, Dict.get (Estoque.produtos loja_ab) i = Some p
                            /\ q <= Produto.quantidade p).
  { intros i q [[= <- <-] | [[= <- <-] | []]]; eexists;
      (split; [vm_compute; reflexivity | simpl; lia]). }
  assert (Hal : forall i q, In (i, q) (Dict.items [(1, 3); (2, 1)]) ->
                  alerta_imprimivel (Estoque.produtos loja_ab) (i, q)).
  { intros i q [[= <- <-] | [[= <- <-] | []]] p Hp _;
      vm_compute in Hp; injection Hp as <-; vm_compute; reflexivity. }
  assert (Hin : In (Produto.mk 1 "A" "M" "Preta" 2 49.9%float 5)
                  (vendidos (Estoque.produtos loja_ab) (Dict.items [(1, 3); (2, 1)])))
    by (left; vm_compute; reflexivity).
  assert (Hlow : Produto.quantidade (Produto.mk 1 "A" "M" "Preta" 2 49.9%float 5)
                 < Produto.limite_minimo (Produto.mk 1 "A" "M" "Preta" 2 49.9%float 5))
    by (simpl; lia).
  split; [exact Hwf |]. split; [exact Hok |]. split; [exact Hal |].
  split; [exact Hin |]. split; [exact Hlow |].
  exact (alertados_no_estoque_baixo cpython311 loja_ab [(1, 3); (2, 1)] 0 _
           Hwf Hok Hal Hin Hlow).
Defined.
